(** * FastAPI-ML: the blog API in its two data-access variants

    Shallow embedding of [backend/app.py] (query-builder variant, SQLAlchemy
    core statements run through [databases] on SQLite) and of
    [tortoise/app.py] with [tortoise/models.py] (ORM variant), and the
    properties of the request handlers.

    The relational store is a pair of tables keyed by their integer primary
    key.  Handlers are state-passing computations over that store which either
    return a value or raise. *)

From Stdlib Require Import ZArith String Ascii DecimalString DecimalZ.
From stdpp Require Import gmap strings list fin_maps sorting.

Local Open Scope Z_scope.
Local Open Scope string_scope.
Set Warnings "-register-all".

(** ** Schema *)

(** The integers SQLite stores and its driver accepts as parameters. *)
Definition int64 (n : Z) : Prop := - 2 ^ 63 <= n < 2 ^ 63.

#[global] Instance int64_dec (n : Z) : Decision (int64 n).
Proof. unfold int64. apply _. Defined.

(** A Python [datetime]: a wall-clock reading, and the UTC offset it carries
    when it is timezone-aware ([None] for a naive one). *)
Record datetime := {
  wall : Z;
  utcoffset : option Z
}.

Definition naive (w : Z) : datetime := {| wall := w; utcoffset := None |}.
Definition aware_utc (w : Z) : datetime := {| wall := w; utcoffset := Some 0 |}.

(** The reading of the same instant on the UTC clock; a naive reading counts
    as UTC. *)
Definition utc_wall (d : datetime) : Z :=
  match utcoffset d with
  | Some offset => wall d - offset
  | None => wall d
  end.

(** Columns of [posts] besides the primary key ([PostTortoise]).  A date
    column holds a wall-clock reading. *)
Record PostRow := {
  row_publication_date : Z;
  row_title : string;
  row_content : string
}.

(** Columns of [comments] besides the primary key ([CommentTortoise]);
    [crow_post_id] is the column behind the [post] foreign key. *)
Record CommentRow := {
  crow_post_id : Z;
  crow_publication_date : Z;
  crow_content : string
}.

(** A table: its rows by primary key, and the largest key ever handed out. *)
Record Table (R : Type) := {
  rows : gmap Z R;
  sequence : Z
}.
Arguments rows {R} _.
Arguments sequence {R} _.

Record DB := {
  posts : Table PostRow;
  comments : Table CommentRow
}.

Definition empty_table {R} : Table R := {| rows := ∅; sequence := 0 |}.
Definition empty_db : DB := {| posts := empty_table; comments := empty_table |}.

(** Largest primary key present in a table (0 when it is empty). *)
Definition max_id {R} (m : gmap Z R) : Z :=
  map_fold (fun k _ acc => Z.max k acc) 0 m.

(** Modelled from the spec: the table declarations of the query-builder
    variant ([backend/models.py]) are missing; identifiers are "assigned by
    storage on creation" and "never reused", which is also what the ORM
    variant's [IntField(pk=True, generated=True)] gives.  The key of a new
    row is one more than both the largest key ever assigned and the largest
    key present. *)
Definition next_id {R} (t : Table R) : Z :=
  Z.max (sequence t) (max_id (rows t)) + 1.

(** [INSERT]: stores the row under a new key and returns the key
    (what [database.execute(insert_query)] returns). *)
Definition table_insert {R} (r : R) (t : Table R) : Table R * Z :=
  let k := next_id t in
  ({| rows := <[k := r]> (rows t); sequence := k |}, k).

(** [DELETE ... WHERE id = k]. *)
Definition table_delete {R} (k : Z) (t : Table R) : Table R :=
  {| rows := delete k (rows t); sequence := sequence t |}.

(** [SELECT ... WHERE id = k], one row or none. *)
Definition table_get {R} (k : Z) (t : Table R) : option R := rows t !! k.

(** Order of two rows in a table scan: ascending primary key, the order in
    which SQLite walks a table when the statement has no [ORDER BY]. *)
Definition key_le {R} (a b : Z * R) : Prop := a.1 <= b.1.

#[global] Instance key_le_dec {R} (a b : Z * R) : Decision (key_le a b).
Proof. unfold key_le. apply _. Defined.

Definition table_scan {R} (t : Table R) : list (Z * R) :=
  merge_sort key_le (map_to_list (rows t)).

(** ** Pydantic models ([tortoise/models.py]; the query-builder variant
    imports models of the same names) *)

(** [CommentBase] / [CommentCreate]. *)
Record CommentCreate := {
  cc_post_id : Z;
  cc_publication_date : datetime;
  cc_content : string
}.

(** [CommentDB(CommentBase)]: adds [id]. *)
Record CommentDB := {
  cd_post_id : Z;
  cd_publication_date : datetime;
  cd_content : string;
  cd_id : Z
}.

(** A [POST /posts] body before validation: [publication_date] may be absent. *)
Record PostCreateBody := {
  body_title : string;
  body_content : string;
  body_publication_date : option datetime
}.

(** [PostBase] / [PostCreate]. *)
Record PostCreate := {
  pc_title : string;
  pc_content : string;
  pc_publication_date : datetime
}.

(** Instantiating [PostCreate] from a body when the clock reads [now]:
    [publication_date: datetime = Field(default_factory=datetime.now)], and
    [datetime.now()] is naive. *)
Definition PostCreate_parse (now : Z) (b : PostCreateBody) : PostCreate :=
  {| pc_title := body_title b;
     pc_content := body_content b;
     pc_publication_date := default (naive now) (body_publication_date b) |}.

(** [PostPartialUpdate]: [title: Optional[str] = None], [content: Optional[str]
    = None].  A field is unset ([None]), set to JSON null ([Some None]) or set
    to a string. *)
Record PostPartialUpdate := {
  pu_title : option (option string);
  pu_content : option (option string)
}.

(** [post_update.dict(exclude_unset=True)]: only the fields the body set. *)
Definition dict_exclude_unset (u : PostPartialUpdate) : list (string * option string) :=
  match pu_title u with Some v => [("title", v)] | None => [] end ++
  match pu_content u with Some v => [("content", v)] | None => [] end.

(** [PostDB(PostBase)]: adds [id]. *)
Record PostDB := {
  pd_title : string;
  pd_content : string;
  pd_publication_date : datetime;
  pd_id : Z
}.

(** [PostPublic(PostDB)]: adds [comments]. *)
Record PostPublic := {
  pp_title : string;
  pp_content : string;
  pp_publication_date : datetime;
  pp_id : Z;
  pp_comments : list CommentDB
}.

(** What the query-builder variant reads from a row: SQLAlchemy's [DateTime]
    gives a date column back as a naive [datetime]. *)
Definition CommentDB_of_row (kr : Z * CommentRow) : CommentDB :=
  {| cd_post_id := crow_post_id kr.2;
     cd_publication_date := naive (crow_publication_date kr.2);
     cd_content := crow_content kr.2;
     cd_id := kr.1 |}.

Definition PostPublic_of_row (k : Z) (r : PostRow) (cs : list CommentDB) : PostPublic :=
  {| pp_title := row_title r;
     pp_content := row_content r;
     pp_publication_date := naive (row_publication_date r);
     pp_id := k;
     pp_comments := cs |}.

Definition PostDB_of_row (kr : Z * PostRow) : PostDB :=
  {| pd_title := row_title kr.2;
     pd_content := row_content kr.2;
     pd_publication_date := naive (row_publication_date kr.2);
     pd_id := kr.1 |}.

(** What the query-builder variant writes from [post.dict()] and
    [comment.dict()]: SQLAlchemy's [DateTime] stores the wall-clock reading of
    a date and drops its offset. *)
Definition PostRow_of_create (p : PostCreate) : PostRow :=
  {| row_publication_date := wall (pc_publication_date p);
     row_title := pc_title p;
     row_content := pc_content p |}.

Definition CommentRow_of_create (c : CommentCreate) : CommentRow :=
  {| crow_post_id := cc_post_id c;
     crow_publication_date := wall (cc_publication_date c);
     crow_content := cc_content c |}.

(** ** Handlers as computations over the store *)

Inductive exn :=
  | HTTPException (status_code : Z) (detail : option string)
  | DoesNotExist
  | IntegrityError
  | ValueError
  | TypeError
  | OverflowError
  | OperationalError
  | ValidationError
  | ParamsError.

Inductive outcome (A : Type) :=
  | Return (a : A)
  | Raise (e : exn).
Arguments Return {A} _.
Arguments Raise {A} _.

Definition M (A : Type) : Type := DB -> DB * outcome A.

Definition ret {A} (a : A) : M A := fun db => (db, Return a).
Definition raise {A} (e : exn) : M A := fun db => (db, Raise e).
Definition bind {A B} (c : M A) (k : A -> M B) : M B :=
  fun db =>
    match c db with
    | (db', Return a) => k a db'
    | (db', Raise e) => (db', Raise e)
    end.
(** [try: c except ...: h]. *)
Definition try_except {A} (c : M A) (h : exn -> M A) : M A :=
  fun db =>
    match c db with
    | (db', Return a) => (db', Return a)
    | (db', Raise e) => h e db'
    end.

Notation "'let*' x := c 'in' k" := (bind c (fun x => k))
  (at level 10, x name, c at level 100, k at level 200).

(** Store left by a computation, and what it returned or raised. *)
Definition store_after {A} (c : M A) (db : DB) : DB := (c db).1.
Definition result_of {A} (c : M A) (db : DB) : outcome A := (c db).2.

(** ** Python names in an f-string *)

Inductive pyobj :=
  | PyInt (n : Z)
  | PyBuiltinFunction (name : string)
  | PyOther.

(** [str(n)] for an integer. *)
Definition str_int (n : Z) : string := NilZero.string_of_int (Z.to_int n).

Definition py_str (o : pyobj) : string :=
  match o with
  | PyInt n => str_int n
  | PyBuiltinFunction name => "<built-in function " ++ name ++ ">"
  | PyOther => "<object>"
  end.

Fixpoint assoc (x : string) (env : list (string * pyobj)) : option pyobj :=
  match env with
  | [] => None
  | (y, v) :: env' => if String.eqb x y then Some v else assoc x env'
  end.

(** Name lookup: the function's locals, then the module's globals, then the
    builtins (where every name this development asks for is a function). *)
Definition lookup_name (locals globals : list (string * pyobj)) (x : string) : pyobj :=
  match assoc x locals with
  | Some v => v
  | None =>
      match assoc x globals with
      | Some v => v
      | None => PyBuiltinFunction x
      end
  end.

Definition other (names : list string) : list (string * pyobj) :=
  (fun x => (x, PyOther)) <$> names.

(** [s] occurs in [t]. *)
Definition substring (s t : string) : Prop :=
  exists pre suf, t = pre ++ s ++ suf.

(** ** Statements *)

(** Looking a post up by an identifier that is part of the statement's text:
    the row, or none.  This is the lookup of the ORM variant. *)
Definition select_post (k : Z) : M (option PostRow) :=
  fun db => (db, Return (table_get k (posts db))).

(** [SELECT * FROM comments WHERE post_id = k], [fetch_all]: the matching
    rows, in the order of the table scan. *)
Definition comments_of (k : Z) (db : DB) : list (Z * CommentRow) :=
  filter (fun kr => crow_post_id kr.2 = k) (table_scan (comments db)).

Definition select_post_comments (k : Z) : M (list (Z * CommentRow)) :=
  fun db => (db, Return (comments_of k db)).

(** [SELECT * FROM comments WHERE id = k], [fetch_one]. *)
Definition select_comment (k : Z) : M (option (Z * CommentRow)) :=
  fun db => (db, Return (pair k <$> table_get k (comments db))).

(** [INSERT INTO posts], returning the new row's key. *)
Definition insert_post (r : PostRow) : M Z :=
  fun db =>
    let (t, k) := table_insert r (posts db) in
    ({| posts := t; comments := comments db |}, Return k).

(** One [SET column = value] on a post row.  [tortoise/models.py] declares
    the columns [null=False], and the data model calls them required, so a
    null value is refused ([None]). *)
Definition set_column (r : PostRow) (kv : string * option string) : option PostRow :=
  match kv.2 with
  | None => None
  | Some v =>
      if String.eqb kv.1 "title" then
        Some {| row_publication_date := row_publication_date r;
                row_title := v; row_content := row_content r |}
      else if String.eqb kv.1 "content" then
        Some {| row_publication_date := row_publication_date r;
                row_title := row_title r; row_content := v |}
      else Some r
  end.

Fixpoint set_columns (r : PostRow) (values : list (string * option string)) : option PostRow :=
  match values with
  | [] => Some r
  | kv :: values' =>
      match set_column r kv with
      | Some r' => set_columns r' values'
      | None => None
      end
  end.

(** [UPDATE posts SET values WHERE id = k].  With no value the statement has
    an empty [SET] clause, which SQLite refuses ([OperationalError]). *)
Definition update_post_values (k : Z) (values : list (string * option string)) : M unit :=
  fun db =>
    match values with
    | [] => (db, Raise OperationalError)
    | _ =>
        match table_get k (posts db) with
        | None => (db, Return tt)
        | Some r =>
            match set_columns r values with
            | Some r' =>
                ({| posts := {| rows := <[k := r']> (rows (posts db));
                                sequence := sequence (posts db) |};
                    comments := comments db |}, Return tt)
            | None => (db, Raise IntegrityError)
            end
        end
    end.

(** ** Query-builder variant: [backend/app.py]

    [backend/database.py] opens ["sqlite:///backend.db"] and sets no pragma:
    SQLite then does not enforce foreign keys, so a statement on [posts]
    touches [posts] only.

    The integers of a statement are bound as parameters, and the driver
    raises [OverflowError] for one outside the 64-bit range.  The rows of a
    table have 64-bit keys, so an identifier outside that range names no
    row. *)
Module Backend.

(** [SELECT * FROM posts WHERE id = ?], [fetch_one]: the row under [k]; when
    there is none, no row for a [k] the statement can carry, and the driver's
    [OverflowError] for any other [k].  The later statements of a handler
    carry the identifier of a row that was found. *)
Definition select_post (k : Z) : M (option PostRow) :=
  fun db =>
    match table_get k (posts db) with
    | Some r => (db, Return (Some r))
    | None =>
        if decide (int64 k) then (db, Return None)
        else (db, Raise OverflowError)
    end.

(** [LIMIT limit OFFSET skip] on the rows of a scan: SQLite reads a negative
    offset as 0 and a negative limit as no limit. *)
Definition limit_offset {A} (skip limit : Z) (l : list A) : list A :=
  let rest := drop (Z.to_nat skip) l in
  if decide (limit < 0) then rest else take (Z.to_nat limit) rest.

(** [SELECT * FROM posts LIMIT ? OFFSET ?], [fetch_all]. *)
Definition select_posts (skip limit : Z) : M (list (Z * PostRow)) :=
  fun db =>
    if decide (int64 skip /\ int64 limit) then
      (db, Return (limit_offset skip limit (table_scan (posts db))))
    else (db, Raise OverflowError).

(** [DELETE FROM posts WHERE id = k]. *)
Definition delete_post_row (k : Z) : M unit :=
  fun db =>
    ({| posts := table_delete k (posts db); comments := comments db |}, Return tt).

(** [INSERT INTO comments], returning the new row's key. *)
Definition insert_comment (r : CommentRow) : M Z :=
  fun db =>
    let (t, k) := table_insert r (comments db) in
    ({| posts := posts db; comments := t |}, Return k).

Definition pagination (skip limit : Z) : Z * Z :=
  let capped_limit := Z.min 100 limit in
  (skip, capped_limit).

Definition get_post_or_404 (id : Z) : M PostPublic :=
  let* raw_post := select_post id in
  match raw_post with
  | None => raise (HTTPException 404 None)
  | Some raw_post =>
      let* raw_comments := select_post_comments id in
      let comments_list := CommentDB_of_row <$> raw_comments in
      ret (PostPublic_of_row id raw_post comments_list)
  end.

(** [list_posts(pagination = Depends(pagination))]. *)
Definition list_posts (pagination : Z * Z) : M (list PostDB) :=
  let '(skip, limit) := pagination in
  let* rows := select_posts skip limit in
  ret (PostDB_of_row <$> rows).

(** [get_posts(post = Depends(get_post_or_404))]. *)
Definition get_posts (id : Z) : M PostPublic :=
  let* post := get_post_or_404 id in
  ret post.

Definition create_post (post : PostCreate) : M PostPublic :=
  let* post_id := insert_post (PostRow_of_create post) in
  let* post_db := get_post_or_404 post_id in
  ret post_db.

(** [update_post(post_update, post = Depends(get_post_or_404))]; [id] is the
    path parameter the dependency receives. *)
Definition update_post (post_update : PostPartialUpdate) (id : Z) : M PostPublic :=
  let* post := get_post_or_404 id in
  let* _ := update_post_values (pp_id post) (dict_exclude_unset post_update) in
  let* post_db := get_post_or_404 (pp_id post) in
  ret post_db.

Definition delete_post (id : Z) : M unit :=
  let* post := get_post_or_404 id in
  delete_post_row (pp_id post).

(** Names bound in [create_comment] where it raises, and at module level. *)
Definition create_comment_locals : list (string * pyobj) :=
  other ["comment"; "database"; "select_post_query"; "post"].

Definition module_globals : list (string * pyobj) :=
  other ["re"; "List"; "Tuple"; "cast"; "Mapping"; "Database"; "FastAPI";
         "Query"; "Path"; "Body"; "Header"; "Depends"; "HTTPException";
         "status"; "get_database"; "sqlalchemy_engine"; "comments";
         "metadata"; "posts"; "CommentCreate"; "CommentDB"; "PostDB";
         "PostCreate"; "PostPartialUpdate"; "PostPublic"; "app"; "startup";
         "shutdown"; "pagination"; "get_post_or_404"; "list_posts";
         "get_posts"; "create_post"; "update_post"; "delete_post";
         "create_comment"].

(** [f"Post {id} does not exist"]. *)
Definition create_comment_detail : string :=
  "Post " ++ py_str (lookup_name create_comment_locals module_globals "id")
          ++ " does not exist".

Definition create_comment (comment : CommentCreate) : M CommentDB :=
  let* post := select_post (cc_post_id comment) in
  match post with
  | None => raise (HTTPException 400 (Some create_comment_detail))
  | Some _ =>
      let* comment_id := insert_comment (CommentRow_of_create comment) in
      let* raw_comment := select_comment comment_id in
      match raw_comment with
      | Some raw_comment => ret (CommentDB_of_row raw_comment)
      | None => raise TypeError
      end
  end.

End Backend.

(** ** ORM variant: [tortoise/app.py], [tortoise/models.py] *)
Module Orm.

(** [on_delete] policies of a foreign key. *)
Inductive OnDelete := CASCADE | RESTRICT | SET_NULL.

Record ForeignKey := {
  fk_model_name : string;
  fk_related_name : string;
  fk_null : bool;
  fk_on_delete : OnDelete
}.

(** [fields.ForeignKeyField(model_name, related_name=..., null=...)]: the
    keyword [on_delete], when the declaration does not pass it, is [CASCADE]. *)
Definition ForeignKeyField (model_name related_name : string) (null : bool) : ForeignKey :=
  {| fk_model_name := model_name; fk_related_name := related_name;
     fk_null := null; fk_on_delete := CASCADE |}.

(** [CommentTortoise.post]. *)
Definition CommentTortoise_post : ForeignKey :=
  ForeignKeyField "models.PostTortoise" "comments" false.

(** [PostTortoise.title = fields.CharField(max_length=255, ...)]: the length
    a title may have when the entity is written. *)
Definition title_max_length : nat := 255.

(** Entities in memory. *)
Record CommentTortoise := {
  ct_id : Z;
  ct_post_id : Z;
  ct_publication_date : datetime;
  ct_content : string
}.

(** [pt_comments] is the reverse relation [comments]: [None] until it has
    been fetched. *)
Record PostTortoise := {
  pt_id : Z;
  pt_publication_date : datetime;
  pt_title : string;
  pt_content : string;
  pt_comments : option (list CommentTortoise)
}.

(** A [DatetimeField] attribute holds a timezone-aware date on the UTC clock:
    a naive date is taken as UTC, an aware one is moved to UTC. *)
Definition to_python_value (d : datetime) : datetime := aware_utc (utc_wall d).

Definition CommentTortoise_of_row (kr : Z * CommentRow) : CommentTortoise :=
  {| ct_id := kr.1; ct_post_id := crow_post_id kr.2;
     ct_publication_date := aware_utc (crow_publication_date kr.2);
     ct_content := crow_content kr.2 |}.

Definition PostTortoise_of_row (k : Z) (r : PostRow) : PostTortoise :=
  {| pt_id := k; pt_publication_date := aware_utc (row_publication_date r);
     pt_title := row_title r; pt_content := row_content r;
     pt_comments := None |}.

Definition PostRow_of_entity (post : PostTortoise) : PostRow :=
  {| row_publication_date := utc_wall (pt_publication_date post);
     row_title := pt_title post; row_content := pt_content post |}.

(** The rows written by [create], fed [post.dict()] or [comment.dict()]. *)
Definition PostRow_of_create (p : PostCreate) : PostRow :=
  {| row_publication_date := utc_wall (pc_publication_date p);
     row_title := pc_title p;
     row_content := pc_content p |}.

Definition CommentRow_of_create (c : CommentCreate) : CommentRow :=
  {| crow_post_id := cc_post_id c;
     crow_publication_date := utc_wall (cc_publication_date c);
     crow_content := cc_content c |}.

(** [PostDB.from_orm(post)], [CommentDB.from_orm(comment)]: the declared
    fields read off the entity's attributes. *)
Definition PostDB_from_orm (post : PostTortoise) : PostDB :=
  {| pd_title := pt_title post; pd_content := pt_content post;
     pd_publication_date := pt_publication_date post; pd_id := pt_id post |}.

Definition CommentDB_from_orm (c : CommentTortoise) : CommentDB :=
  {| cd_post_id := ct_post_id c; cd_publication_date := ct_publication_date c;
     cd_content := ct_content c; cd_id := ct_id c |}.

(** [PostTortoise.get(id=id)]: the primary key selects at most one row. *)
Definition PostTortoise_get (id : Z) : M PostTortoise :=
  let* row := select_post id in
  match row with
  | Some r => ret (PostTortoise_of_row id r)
  | None => raise DoesNotExist
  end.

(** [.prefetch_related("comments")]. *)
Definition prefetch_related_comments (post : PostTortoise) : M PostTortoise :=
  let* related := select_post_comments (pt_id post) in
  ret {| pt_id := pt_id post; pt_publication_date := pt_publication_date post;
         pt_title := pt_title post; pt_content := pt_content post;
         pt_comments := Some (CommentTortoise_of_row <$> related) |}.

(** [PostTortoise.create(...)], fed [post.dict()]: a title longer than the
    field allows fails validation and nothing is written. *)
Definition PostTortoise_create (post : PostCreate) : M PostTortoise :=
  if decide (String.length (pc_title post) <= title_max_length)%nat then
    let* id := insert_post (PostRow_of_create post) in
    ret (PostTortoise_of_row id (PostRow_of_create post))
  else raise ValidationError.

(** [CommentTortoise.create(...)], fed [comment.dict()]; the store enforces
    the foreign key. *)
Definition CommentTortoise_create (comment : CommentCreate) : M CommentTortoise :=
  fun db =>
    match table_get (cc_post_id comment) (posts db) with
    | None => (db, Raise IntegrityError)
    | Some _ =>
        let (t, k) := table_insert (CommentRow_of_create comment) (comments db) in
        ({| posts := posts db; comments := t |},
         Return (CommentTortoise_of_row (k, CommentRow_of_create comment)))
    end.

(** One item of [update_from_dict]: a null for a field declared [null=False]
    raises [ValueError]; otherwise the value is validated for the field (a
    title longer than the field allows raises [ValidationError]) and the
    attribute is set. *)
Definition set_attribute (post : PostTortoise) (kv : string * option string)
  : exn + PostTortoise :=
  match kv.2 with
  | None => inl ValueError
  | Some v =>
      if String.eqb kv.1 "title" then
        if decide (String.length v <= title_max_length)%nat then
          inr {| pt_id := pt_id post; pt_publication_date := pt_publication_date post;
                 pt_title := v; pt_content := pt_content post;
                 pt_comments := pt_comments post |}
        else inl ValidationError
      else if String.eqb kv.1 "content" then
        inr {| pt_id := pt_id post; pt_publication_date := pt_publication_date post;
               pt_title := pt_title post; pt_content := v;
               pt_comments := pt_comments post |}
      else inr post
  end.

Fixpoint update_from_dict (post : PostTortoise) (data : list (string * option string))
  : M PostTortoise :=
  match data with
  | [] => ret post
  | kv :: data' =>
      match set_attribute post kv with
      | inr post' => update_from_dict post' data'
      | inl e => raise e
      end
  end.

(** [post.save()] of a loaded entity: [UPDATE posts SET publication_date,
    title, content WHERE id = post.id], after the fields have been validated:
    a title longer than the field allows fails and nothing is written. *)
Definition save (post : PostTortoise) : M unit :=
  fun db =>
    if decide (String.length (pt_title post) <= title_max_length)%nat then
      ({| posts := {| rows := alter (fun _ => PostRow_of_entity post) (pt_id post)
                                (rows (posts db));
                      sequence := sequence (posts db) |};
          comments := comments db |}, Return tt)
    else (db, Raise ValidationError).

(** [post.delete()]: [DELETE FROM posts WHERE id = post.id], with the
    foreign key's [on_delete] applied to the rows of [comments] that reference
    the post. *)
Definition delete (post : PostTortoise) : M unit :=
  fun db =>
    let dependents :=
      filter (fun kr => crow_post_id kr.2 = pt_id post) (rows (comments db)) in
    match fk_on_delete CommentTortoise_post with
    | CASCADE =>
        ({| posts := table_delete (pt_id post) (posts db);
            comments := {| rows := filter (fun kr => crow_post_id kr.2 <> pt_id post)
                                     (rows (comments db));
                           sequence := sequence (comments db) |} |}, Return tt)
    | RESTRICT | SET_NULL =>
        if decide (dependents = ∅) then
          ({| posts := table_delete (pt_id post) (posts db);
              comments := comments db |}, Return tt)
        else (db, Raise IntegrityError)
    end.

(** [PostTortoise.all().offset(skip).limit(limit)]: the query set refuses a
    negative offset or limit ([ParamsError]); the two numbers are written
    into the statement, and SQLite refuses one that is no 64-bit integer
    (datatype mismatch, an [IntegrityError]). *)
Definition PostTortoise_all (skip limit : Z) : M (list PostTortoise) :=
  fun db =>
    if decide (skip < 0 \/ limit < 0) then (db, Raise ParamsError)
    else if decide (skip < 2 ^ 63 /\ limit < 2 ^ 63) then
      (db, Return ((fun kr => PostTortoise_of_row kr.1 kr.2) <$>
                     take (Z.to_nat limit) (drop (Z.to_nat skip) (table_scan (posts db)))))
    else (db, Raise IntegrityError).

Definition pagination (skip limit : Z) : Z * Z :=
  let capped_limit := Z.min 100 limit in
  (skip, capped_limit).

Definition get_post_or_404 (id : Z) : M PostTortoise :=
  try_except
    (let* post := PostTortoise_get id in prefetch_related_comments post)
    (fun e =>
       match e with
       | DoesNotExist => raise (HTTPException 404 None)
       | _ => raise e
       end).

(** [list_posts(pagination = Depends(pagination))]. *)
Definition list_posts (pagination : Z * Z) : M (list PostDB) :=
  let '(skip, limit) := pagination in
  let* posts := PostTortoise_all skip limit in
  let results := PostDB_from_orm <$> posts in
  ret results.

(** [get_post(post = Depends(get_post_or_404))]. *)
Definition get_post (id : Z) : M PostDB :=
  let* post := get_post_or_404 id in
  ret (PostDB_from_orm post).

Definition create_post (post : PostCreate) : M PostDB :=
  let* post_tortoise := PostTortoise_create post in
  ret (PostDB_from_orm post_tortoise).

Definition update_post (post_update : PostPartialUpdate) (id : Z) : M PostDB :=
  let* post := get_post_or_404 id in
  let* post := update_from_dict post (dict_exclude_unset post_update) in
  let* _ := save post in
  ret (PostDB_from_orm post).

Definition delete_post (id : Z) : M unit :=
  let* post := get_post_or_404 id in
  delete post.

Definition create_comment_locals : list (string * pyobj) :=
  other ["comment"].

Definition module_globals : list (string * pyobj) :=
  other ["List"; "Tuple"; "Depends"; "FastAPI"; "HTTPException"; "Query";
         "status"; "register_tortoise"; "DoesNotExist"; "CommentBase";
         "CommentDB"; "CommentTortoise"; "PostCreate"; "PostDB";
         "PostPartialUpdate"; "PostPublic"; "PostTortoise"; "app";
         "pagination"; "get_post_or_404"; "list_posts"; "get_post";
         "create_post"; "update_post"; "delete_post"; "create_comment";
         "TORTOISE_ORM"].

(** [f"Post {id} does not exist"]. *)
Definition create_comment_detail : string :=
  "Post " ++ py_str (lookup_name create_comment_locals module_globals "id")
          ++ " does not exist".

Definition create_comment (comment : CommentCreate) : M CommentDB :=
  let* _ :=
    try_except (PostTortoise_get (cc_post_id comment))
      (fun e =>
         match e with
         | DoesNotExist => raise (HTTPException 400 (Some create_comment_detail))
         | _ => raise e
         end) in
  let* comment_tortoise := CommentTortoise_create comment in
  ret (CommentDB_from_orm comment_tortoise).

End Orm.

(** ** The HTTP boundary *)

(** JSON-like values: what [model.dict()] gives and what a response carries. *)
Inductive value :=
  | VInt (n : Z)
  | VStr (s : string)
  | VDatetime (d : datetime)
  | VList (l : list value)
  | VDict (items : list (string * value)).

Definition CommentDB_dict (c : CommentDB) : value :=
  VDict [("post_id", VInt (cd_post_id c));
         ("publication_date", VDatetime (cd_publication_date c));
         ("content", VStr (cd_content c));
         ("id", VInt (cd_id c))].

Definition PostDB_dict (p : PostDB) : value :=
  VDict [("title", VStr (pd_title p));
         ("content", VStr (pd_content p));
         ("publication_date", VDatetime (pd_publication_date p));
         ("id", VInt (pd_id p))].

Definition PostPublic_dict (p : PostPublic) : value :=
  VDict [("title", VStr (pp_title p));
         ("content", VStr (pp_content p));
         ("publication_date", VDatetime (pp_publication_date p));
         ("id", VInt (pp_id p));
         ("comments", VList (CommentDB_dict <$> pp_comments p))].

Definition PostDB_fields : list string :=
  ["title"; "content"; "publication_date"; "id"].
Definition CommentDB_fields : list string :=
  ["post_id"; "publication_date"; "content"; "id"].

Fixpoint dict_get (k : string) (items : list (string * value)) : option value :=
  match items with
  | [] => None
  | (k', v) :: items' => if String.eqb k k' then Some v else dict_get k items'
  end.

(** [response_model=Model]: the returned object's [dict()] is validated
    against the model, which keeps the model's declared fields and ignores any
    other key. *)
Definition response_model (fields : list string) (returned : value) : value :=
  match returned with
  | VDict items =>
      VDict (omap (fun k => pair k <$> dict_get k items) fields)
  | v => v
  end.

Record Response := {
  status_code : Z;
  content : option value
}.

(** Reason phrase that stands in for the detail of an [HTTPException] raised
    without one. *)
Definition phrase (status : Z) : string :=
  if Z.eqb status 400 then "Bad Request"
  else if Z.eqb status 404 then "Not Found"
  else "".

(** What the framework sends for a handler's outcome: the declared status and
    the filtered return value, the status and detail of an [HTTPException],
    500 for any other exception. *)
Definition respond {A} (status : Z) (serialize : A -> option value) (o : outcome A)
  : Response :=
  match o with
  | Return a => {| status_code := status; content := serialize a |}
  | Raise (HTTPException st detail) =>
      {| status_code := st;
         content := Some (VDict [("detail", VStr (default (phrase st) detail))]) |}
  | Raise _ =>
      {| status_code := 500; content := Some (VStr "Internal Server Error") |}
  end.

Definition endpoint {A} (status : Z) (serialize : A -> option value) (c : M A)
  : DB -> DB * Response :=
  fun db => ((c db).1, respond status serialize (c db).2).

(** [register_tortoise(app, ..., add_exception_handlers=True)]: the ORM
    variant answers 404 to a [DoesNotExist] and 422 to an [IntegrityError]
    that leave a handler; the bodies carry the exception's message. *)
Definition tortoise_exception_handler (e : exn) : option Response :=
  match e with
  | DoesNotExist =>
      Some {| status_code := 404;
              content := Some (VDict [("detail", VStr "Object does not exist")]) |}
  | IntegrityError =>
      Some {| status_code := 422;
              content :=
                Some (VDict [("detail",
                              VList [VDict [("loc", VList []);
                                            ("msg", VStr "datatype mismatch");
                                            ("type", VStr "IntegrityError")]])]) |}
  | _ => None
  end.

Definition respond_tortoise {A} (status : Z) (serialize : A -> option value)
    (o : outcome A) : Response :=
  match o with
  | Raise e => default (respond status serialize o) (tortoise_exception_handler e)
  | Return _ => respond status serialize o
  end.

Definition endpoint_tortoise {A} (status : Z) (serialize : A -> option value) (c : M A)
  : DB -> DB * Response :=
  fun db => ((c db).1, respond_tortoise status serialize (c db).2).

Definition as_PostDB (returned : value) : option value :=
  Some (response_model PostDB_fields returned).
Definition as_CommentDB (returned : value) : option value :=
  Some (response_model CommentDB_fields returned).
Definition no_content {A} (_ : A) : option value := None.

(** A list of posts as a response body. *)
Definition posts_body (l : list PostDB) : option value :=
  Some (VList (PostDB_dict <$> l)).

(** *** Routes *)

Inductive Method := GET | POST | PATCH | DELETE.

#[global] Instance Method_eq_dec : EqDecision Method.
Proof. solve_decision. Defined.

Record Route := {
  route_method : Method;
  route_path : string;
  route_name : string
}.

(** A path template compiled for matching. *)
Inductive token :=
  | Lit (c : ascii)
  | Param (name : string).

(** [compile_path]: [{name}] becomes a parameter, any other character stands
    for itself. *)
Fixpoint compile_path (in_param : option string) (path : string) : list token :=
  match path with
  | EmptyString => []
  | String c path' =>
      match in_param with
      | None =>
          if Ascii.eqb c "{" then compile_path (Some "") path'
          else Lit c :: compile_path None path'
      | Some name =>
          if Ascii.eqb c "}" then Param name :: compile_path None path'
          else compile_path (Some (name ++ String c "")) path'
      end
  end.

(** Matching a whole request path: a parameter takes one or more characters
    other than ['/'], as many as it can. *)
Fixpoint match_tokens (ts : list token) (p : string) {struct ts}
  : option (list (string * string)) :=
  match ts with
  | [] => match p with EmptyString => Some [] | _ => None end
  | Lit c :: ts' =>
      match p with
      | String c' p' => if Ascii.eqb c c' then match_tokens ts' p' else None
      | EmptyString => None
      end
  | Param name :: ts' =>
      (fix take (taken p : string) {struct p} : option (list (string * string)) :=
         match p with
         | EmptyString => None
         | String c p' =>
             if Ascii.eqb c "/" then None
             else
               let taken' := taken ++ String c "" in
               match take taken' p' with
               | Some params => Some params
               | None => cons (name, taken') <$> match_tokens ts' p'
               end
         end) "" p
  end.

Definition match_path (template path : string) : option (list (string * string)) :=
  match_tokens (compile_path None template) path.

(** The router: the first route whose method and path both match. *)
Fixpoint find_route (routes : list Route) (m : Method) (path : string)
  : option (Route * list (string * string)) :=
  match routes with
  | [] => None
  | r :: routes' =>
      match match_path (route_path r) path with
      | Some params =>
          if decide (route_method r = m) then Some (r, params)
          else find_route routes' m path
      | None => find_route routes' m path
      end
  end.

(** What the router does with a request no route takes in full: a route
    whose path matches under another method answers 405; failing that, a
    path other than ["/"] that some route matches once its trailing slashes
    are dropped, or once a slash is added, is redirected; anything else is
    answered 404. *)
Inductive Routed :=
  | Handled (r : Route) (params : list (string * string))
  | MethodNotAllowed
  | RedirectSlashes (path : string)
  | NotFound.

Definition path_matches (routes : list Route) (path : string) : bool :=
  existsb (fun r => bool_decide (is_Some (match_path (route_path r) path))) routes.

Fixpoint ends_with_slash (s : string) : bool :=
  match s with
  | EmptyString => false
  | String c EmptyString => Ascii.eqb c "/"
  | String _ s' => ends_with_slash s'
  end.

(** [path.rstrip("/")]. *)
Fixpoint rstrip_slashes (s : string) : string :=
  match s with
  | EmptyString => EmptyString
  | String c s' =>
      match rstrip_slashes s' with
      | EmptyString => if Ascii.eqb c "/" then EmptyString else String c EmptyString
      | rest => String c rest
      end
  end.

Definition redirect_path (path : string) : string :=
  if ends_with_slash path then rstrip_slashes path else path ++ "/".

Definition route_request (routes : list Route) (m : Method) (path : string) : Routed :=
  match find_route routes m path with
  | Some (r, params) => Handled r params
  | None =>
      if path_matches routes path then MethodNotAllowed
      else if negb (String.eqb path "/") && path_matches routes (redirect_path path)
      then RedirectSlashes (redirect_path path)
      else NotFound
  end.

(** The decorators of [backend/app.py], in order. *)
Definition Backend_routes : list Route :=
  [ {| route_method := GET; route_path := "/posts"; route_name := "list_posts" |};
    {| route_method := GET; route_path := "posts/{id}"; route_name := "get_posts" |};
    {| route_method := POST; route_path := "/posts"; route_name := "create_post" |};
    {| route_method := PATCH; route_path := "/posts/{id}"; route_name := "update_post" |};
    {| route_method := DELETE; route_path := "/posts/{id}"; route_name := "delete_post" |};
    {| route_method := POST; route_path := "/comments"; route_name := "create_comment" |} ].

(** The decorators of [tortoise/app.py], in order. *)
Definition Orm_routes : list Route :=
  [ {| route_method := GET; route_path := "/posts"; route_name := "list_posts" |};
    {| route_method := GET; route_path := "/posts/{id}"; route_name := "get_post" |};
    {| route_method := POST; route_path := "/posts"; route_name := "create_post" |};
    {| route_method := PATCH; route_path := "/posts/{id}"; route_name := "update_post" |};
    {| route_method := DELETE; route_path := "/posts/{id}"; route_name := "delete_post" |};
    {| route_method := POST; route_path := "/comments"; route_name := "create_comment" |} ].

(** *** The decorated endpoints

    Status codes and response models are those of the decorators; a route
    without [status_code] answers 200. *)
Module BackendApp.

(** [@app.get("posts/{id}", response_model=PostDB)] *)
Definition get_posts (id : Z) : DB -> DB * Response :=
  endpoint 200 (fun p => as_PostDB (PostPublic_dict p)) (Backend.get_posts id).

(** [@app.post("/posts", response_model=PostDB, status_code=201)] *)
Definition create_post (post : PostCreate) : DB -> DB * Response :=
  endpoint 201 (fun p => as_PostDB (PostPublic_dict p)) (Backend.create_post post).

(** [@app.patch("/posts/{id}", response_model=PostDB)] *)
Definition update_post (post_update : PostPartialUpdate) (id : Z) : DB -> DB * Response :=
  endpoint 200 (fun p => as_PostDB (PostPublic_dict p))
    (Backend.update_post post_update id).

(** [@app.delete("/posts/{id}", status_code=204)] *)
Definition delete_post (id : Z) : DB -> DB * Response :=
  endpoint 204 no_content (Backend.delete_post id).

(** [@app.post("/comments", response_model=CommentDB, status_code=201)] *)
Definition create_comment (comment : CommentCreate) : DB -> DB * Response :=
  endpoint 201 (fun c => as_CommentDB (CommentDB_dict c))
    (Backend.create_comment comment).

(** [@app.get("/posts")], on the pair the [pagination] dependency returns. *)
Definition list_posts (pagination : Z * Z) : DB -> DB * Response :=
  endpoint 200 posts_body (Backend.list_posts pagination).

End BackendApp.

Module OrmApp.

(** [@app.get("/posts/{id}", response_model=PostDB)] *)
Definition get_post (id : Z) : DB -> DB * Response :=
  endpoint_tortoise 200 (fun p => as_PostDB (PostDB_dict p)) (Orm.get_post id).

(** [@app.post("/posts", response_model=PostDB, status_code=201)] *)
Definition create_post (post : PostCreate) : DB -> DB * Response :=
  endpoint_tortoise 201 (fun p => as_PostDB (PostDB_dict p)) (Orm.create_post post).

(** [@app.patch("/posts/{id}", response_model=PostDB)] *)
Definition update_post (post_update : PostPartialUpdate) (id : Z) : DB -> DB * Response :=
  endpoint_tortoise 200 (fun p => as_PostDB (PostDB_dict p)) (Orm.update_post post_update id).

(** [@app.delete("/posts/{id}", status_code=204)] *)
Definition delete_post (id : Z) : DB -> DB * Response :=
  endpoint_tortoise 204 no_content (Orm.delete_post id).

(** [@app.post("/comments", response_model=CommentDB, status_code=201)] *)
Definition create_comment (comment : CommentCreate) : DB -> DB * Response :=
  endpoint_tortoise 201 (fun c => as_CommentDB (CommentDB_dict c)) (Orm.create_comment comment).

(** [@app.get("/posts")], on the pair the [pagination] dependency returns. *)
Definition list_posts (pagination : Z * Z) : DB -> DB * Response :=
  endpoint_tortoise 200 posts_body (Orm.list_posts pagination).

End OrmApp.


(** ** Vocabulary of the statements *)

(** Requests that write to the store, and the store a sequence of them leaves
    behind in each variant. *)
Inductive request :=
  | CreatePost (post : PostCreate)
  | UpdatePost (post_update : PostPartialUpdate) (id : Z)
  | DeletePost (id : Z)
  | CreateComment (comment : CommentCreate).

Definition Backend_step (db : DB) (q : request) : DB :=
  match q with
  | CreatePost post => store_after (Backend.create_post post) db
  | UpdatePost u id => store_after (Backend.update_post u id) db
  | DeletePost id => store_after (Backend.delete_post id) db
  | CreateComment comment => store_after (Backend.create_comment comment) db
  end.

Definition Orm_step (db : DB) (q : request) : DB :=
  match q with
  | CreatePost post => store_after (Orm.create_post post) db
  | UpdatePost u id => store_after (Orm.update_post u id) db
  | DeletePost id => store_after (Orm.delete_post id) db
  | CreateComment comment => store_after (Orm.create_comment comment) db
  end.

(** Every post identifier that occurs in the store, as the key of a post or as
    the [post_id] of a comment, has been handed out by the posts table. *)
Definition post_ids_assigned (db : DB) : Prop :=
  (forall k r, table_get k (posts db) = Some r -> k <= sequence (posts db)) /\
  (forall k c, table_get k (comments db) = Some c ->
               crow_post_id c <= sequence (posts db)).

(** A body whose set fields are strings (no JSON null). *)
Definition no_null (u : PostPartialUpdate) : Prop :=
  pu_title u <> Some None /\ pu_content u <> Some None.

(** Between [db] and [db'], on the post [id] whose row was [r]: the row is
    still stored under [id], with its publication date, and with the title and
    the content it had unless the body set them; every other post, the key
    sequence and the comments are as they were. *)
Definition only_given_fields_changed
    (u : PostPartialUpdate) (id : Z) (r : PostRow) (db db' : DB) : Prop :=
  exists r',
    table_get id (posts db') = Some r' /\
    row_publication_date r' = row_publication_date r /\
    (pu_title u = None -> row_title r' = row_title r) /\
    (pu_content u = None -> row_content r' = row_content r) /\
    (forall k, k <> id -> table_get k (posts db') = table_get k (posts db)) /\
    sequence (posts db') = sequence (posts db) /\
    comments db' = comments db.

(** The strings the body set are what the row [id] of [db'] holds. *)
Definition given_fields_stored (u : PostPartialUpdate) (id : Z) (db' : DB) : Prop :=
  exists r',
    table_get id (posts db') = Some r' /\
    (forall t, pu_title u = Some (Some t) -> row_title r' = t) /\
    (forall c, pu_content u = Some (Some c) -> row_content r' = c).

(** Every stored comment references a stored post. *)
Definition referential_integrity (db : DB) : Prop :=
  forall k c, table_get k (comments db) = Some c ->
              is_Some (table_get (crow_post_id c) (posts db)).

(** A path segment: not empty, and without ['/']. *)
Fixpoint slash_free (s : string) : bool :=
  match s with
  | EmptyString => true
  | String c s' => negb (Ascii.eqb c "/") && slash_free s'
  end.

Definition segment (s : string) : Prop := s <> "" /\ slash_free s = true.

(** A body that sets some field to JSON null. *)
Definition sets_null (u : PostPartialUpdate) : Prop :=
  pu_title u = Some None \/ pu_content u = Some None.

(** A request other than a delete. *)
Definition delete_free (q : request) : Prop :=
  match q with
  | DeletePost _ => False
  | _ => True
  end.

(** A request whose title, if it carries one, fits the 255 characters that
    [PostTortoise.title] declares. *)
Definition title_fits (q : request) : Prop :=
  match q with
  | CreatePost post => (String.length (pc_title post) <= 255)%nat
  | UpdatePost u _ =>
      forall t, pu_title u = Some (Some t) -> (String.length t <= 255)%nat
  | _ => True
  end.

(** Every stored title fits these 255 characters. *)
Definition titles_fit (db : DB) : Prop :=
  forall k r, table_get k (posts db) = Some r -> (String.length (row_title r) <= 255)%nat.

(** A title the body sets, if any, fits the 255 characters that
    [PostTortoise.title] declares. *)
Definition title_set_fits (u : PostPartialUpdate) : Prop :=
  forall t, pu_title u = Some (Some t) -> (String.length t <= 255)%nat.

#[global] Instance title_set_fits_dec (u : PostPartialUpdate) :
  Decision (title_set_fits u).
Proof.
  unfold title_set_fits. destruct (pu_title u) as [[t|]|].
  - destruct (decide (String.length t <= 255)%nat) as [Hle|Hgt].
    + left. by intros ? [= <-].
    + right. intros H. by apply Hgt, H.
  - left. intros ? [=].
  - left. intros ? [=].
Defined.

(** A body that both variants act on: it sets a field, every field it sets
    is a string, and the title fits. *)
Definition accepted (u : PostPartialUpdate) : Prop :=
  dict_exclude_unset u <> [] /\ no_null u /\ title_set_fits u.

(** A date that is naive or carries the offset 0: its wall-clock reading is
    its UTC reading. *)
Definition utc_date (d : datetime) : Prop :=
  utcoffset d = None \/ utcoffset d = Some 0.

(** A request whose date, if it carries one, is such a date. *)
Definition utc_dated (q : request) : Prop :=
  match q with
  | CreatePost post => utc_date (pc_publication_date post)
  | CreateComment comment => utc_date (cc_publication_date comment)
  | _ => True
  end.

(** Ascending keys, none twice. *)
Definition key_lt {R} (a b : Z * R) : Prop := a.1 < b.1.

(** What each variant makes of a stored comment row. *)
Definition backend_comment (k : Z) (row : CommentRow) : CommentDB :=
  {| cd_post_id := crow_post_id row;
     cd_publication_date := naive (crow_publication_date row);
     cd_content := crow_content row;
     cd_id := k |}.

Definition orm_comment (k : Z) (row : CommentRow) : Orm.CommentTortoise :=
  {| Orm.ct_id := k; Orm.ct_post_id := crow_post_id row;
     Orm.ct_publication_date := aware_utc (crow_publication_date row);
     Orm.ct_content := crow_content row |}.

(** What the ORM variant makes of a stored post row. *)
Definition orm_post (k : Z) (r : PostRow) : PostDB :=
  {| pd_title := row_title r; pd_content := row_content r;
     pd_publication_date := aware_utc (row_publication_date r); pd_id := k |}.

(** A decimal digit, and a string that shows one. *)
Definition is_digit (c : ascii) : bool :=
  existsb (Ascii.eqb c) ["0"; "1"; "2"; "3"; "4"; "5"; "6"; "7"; "8"; "9"]%char.

Fixpoint has_digit (s : string) : bool :=
  match s with
  | EmptyString => false
  | String c s' => is_digit c || has_digit s'
  end.

(** Sample data. *)
Definition sample_post : PostCreate :=
  {| pc_title := "A"; pc_content := "B"; pc_publication_date := naive 7 |}.
Definition sample_comment : CommentCreate :=
  {| cc_post_id := 1; cc_publication_date := naive 8; cc_content := "C" |}.
(** One post, with one comment. *)
Definition sample_db : DB :=
  store_after (Backend.create_comment sample_comment)
    (store_after (Backend.create_post sample_post) empty_db).

(** A post identifier beyond the 64-bit range, and a comment on it. *)
Definition huge_id : Z := 2 ^ 64.
Definition huge_comment : CommentCreate :=
  {| cc_post_id := huge_id; cc_publication_date := naive 8; cc_content := "C" |}.
(** A title of 256 characters, and a post with it. *)
Definition long_title : string :=
  String.concat "" (repeat "a" 256).
Definition long_post : PostCreate :=
  {| pc_title := long_title; pc_content := "B"; pc_publication_date := naive 7 |}.

(** * Properties *)

(** ** The store *)

Section Store.
Context {R : Type}.
Implicit Types (t : Table R) (m : gmap Z R).

Lemma max_id_ge m k r : m !! k = Some r -> k <= max_id m.
Proof.
  unfold max_id. revert k r.
  apply (map_fold_weak_ind
           (fun acc (m : gmap Z R) => forall k r, m !! k = Some r -> k <= acc)).
  - intros k r H. by rewrite lookup_empty in H.
  - intros i x m' acc _ IH k r H.
    destruct (decide (i = k)) as [->|Hne].
    + lia.
    + rewrite lookup_insert_ne in H by done. specialize (IH k r H). lia.
Qed.

Lemma next_id_fresh t : rows t !! next_id t = None.
Proof.
  destruct (rows t !! next_id t) as [r|] eqn:E; [|done].
  apply max_id_ge in E. unfold next_id in E. lia.
Qed.

Lemma next_id_above_sequence t : sequence t < next_id t.
Proof. unfold next_id. lia. Qed.

Lemma table_insert_get r t :
  table_get (table_insert r t).2 (table_insert r t).1 = Some r.
Proof. unfold table_get, table_insert. simpl. apply lookup_insert_eq. Qed.

Lemma table_insert_keeps r t k x :
  table_get k t = Some x -> table_get k (table_insert r t).1 = Some x.
Proof.
  unfold table_get, table_insert. simpl. intros H.
  rewrite lookup_insert_ne; [done|].
  intros Heq. rewrite <- Heq in H. by rewrite next_id_fresh in H.
Qed.

(** *** The table scan *)

#[local] Instance key_le_trans : Transitive (@key_le R).
Proof. intros a b c. unfold key_le. lia. Qed.

#[local] Instance key_le_total : Total (@key_le R).
Proof. intros a b. unfold key_le. lia. Qed.

Lemma table_scan_Permutation t : table_scan t ≡ₚ map_to_list (rows t).
Proof. apply merge_sort_Permutation. Qed.

Lemma elem_of_table_scan t k r : (k, r) ∈ table_scan t <-> table_get k t = Some r.
Proof.
  unfold table_get. rewrite table_scan_Permutation. apply elem_of_map_to_list.
Qed.

Lemma table_scan_NoDup t : NoDup (table_scan t).*1.
Proof.
  rewrite table_scan_Permutation. apply NoDup_fst_map_to_list.
Qed.

Lemma table_scan_length t : length (table_scan t) = size (rows t).
Proof.
  rewrite table_scan_Permutation. apply length_map_to_list.
Qed.

Lemma sorted_strict (l : list (Z * R)) :
  StronglySorted key_le l -> NoDup l.*1 -> StronglySorted key_lt l.
Proof.
  induction 1 as [|x l Hl IH Hx]; intros Hnd; [constructor|].
  rewrite fmap_cons in Hnd. apply NoDup_cons in Hnd as [Hnotin Hnd].
  constructor; [by apply IH|].
  apply Forall_forall. intros y Hy.
  rewrite Forall_forall in Hx. specialize (Hx y Hy).
  unfold key_le, key_lt in *.
  assert (x.1 <> y.1); [|lia].
  intros Heq. apply Hnotin. rewrite Heq. by apply list_elem_of_fmap_2.
Qed.

Lemma table_scan_sorted t : StronglySorted key_lt (table_scan t).
Proof.
  apply sorted_strict; [|apply table_scan_NoDup].
  apply StronglySorted_merge_sort; apply _.
Qed.

Lemma sorted_sublist (l1 l2 : list (Z * R)) :
  l1 `sublist_of` l2 -> StronglySorted key_lt l2 -> StronglySorted key_lt l1.
Proof.
  induction 1 as [|x l1 l2 Hsub IH|x l1 l2 Hsub IH]; intros Hs; [done| |].
  - apply StronglySorted_cons in Hs as [Hx Hs].
    constructor; [by apply IH|].
    apply Forall_forall. intros y Hy. rewrite Forall_forall in Hx.
    apply Hx. by eapply elem_of_sublist.
  - apply StronglySorted_cons in Hs as [_ Hs]. by apply IH.
Qed.

Lemma sorted_unique (l1 l2 : list (Z * R)) :
  StronglySorted key_lt l1 -> StronglySorted key_lt l2 -> l1 ≡ₚ l2 -> l1 = l2.
Proof.
  apply StronglySorted_unique_strong.
  intros x1 x2 _ _. unfold key_lt. lia.
Qed.

Lemma sorted_keys (l : list (Z * R)) :
  StronglySorted key_lt l -> StronglySorted Z.lt l.*1.
Proof.
  induction 1 as [|x l Hl IH Hx]; [constructor|].
  rewrite fmap_cons. constructor; [done|].
  apply Forall_fmap. eapply Forall_impl; [exact Hx|done].
Qed.

(** The scan of a table that got a row under a free key. *)
Lemma table_scan_insert t k r s :
  rows t !! k = None ->
  table_scan {| rows := <[k := r]> (rows t); sequence := s |}
  ≡ₚ (k, r) :: table_scan t.
Proof.
  intros H. rewrite !table_scan_Permutation. simpl. by apply map_to_list_insert.
Qed.

End Store.

(** Unfolding a handler down to the statements it runs. *)
Ltac unfold_monad :=
  unfold result_of, store_after, endpoint, endpoint_tortoise, try_except, bind,
    ret, raise, select_post, select_post_comments, select_comment, insert_post
    in *.

Ltac unfold_backend :=
  unfold Backend.get_posts, Backend.create_post, Backend.update_post,
    Backend.delete_post, Backend.create_comment, Backend.get_post_or_404,
    Backend.delete_post_row, Backend.insert_comment, Backend.select_post in *;
  unfold_monad.

Ltac unfold_orm :=
  unfold Orm.get_post, Orm.create_post, Orm.update_post, Orm.delete_post,
    Orm.create_comment, Orm.get_post_or_404, Orm.PostTortoise_get,
    Orm.prefetch_related_comments, Orm.PostTortoise_create,
    Orm.CommentTortoise_create, Orm.save, Orm.delete in *;
  unfold_monad.

(** ** Comments of a post, as a query returns them *)

(** Every row a comment query returns references the post asked for. *)
Lemma comments_of_reference (id : Z) (db : DB) :
  Forall (fun kr : Z * CommentRow => crow_post_id kr.2 = id) (comments_of id db).
Proof.
  apply Forall_forall. intros [k c] Hin. unfold comments_of in Hin.
  by apply list_elem_of_filter in Hin as [Hp _].
Qed.

(** The query returns exactly the stored rows that reference the post. *)
Lemma comments_of_complete (id : Z) (db : DB) (k : Z) (c : CommentRow) :
  (k, c) ∈ comments_of id db <->
  table_get k (comments db) = Some c /\ crow_post_id c = id.
Proof.
  unfold comments_of. rewrite list_elem_of_filter, elem_of_table_scan. simpl.
  tauto.
Qed.

(** ... in ascending order of their keys. *)
Lemma comments_of_sorted (id : Z) (db : DB) :
  StronglySorted key_lt (comments_of id db).
Proof.
  eapply sorted_sublist; [apply sublist_filter|apply table_scan_sorted].
Qed.

Lemma comments_of_none (id : Z) (db : DB) :
  (forall k c, table_get k (comments db) = Some c -> crow_post_id c <> id) ->
  comments_of id db = [].
Proof.
  intros H. destruct (comments_of id db) as [|[k c] l] eqn:E; [done|].
  assert (Hin : (k, c) ∈ comments_of id db) by (rewrite E; left).
  apply comments_of_complete in Hin as [Hk Hc]. by destruct (H k c Hk).
Qed.

(** What a comment query returns after a row has been inserted under a key
    that was free. *)
Lemma comments_of_insert (id k : Z) (row : CommentRow) (db : DB) (seq : Z) :
  table_get k (comments db) = None ->
  let db' := {| posts := posts db;
                comments := {| rows := <[k := row]> (rows (comments db));
                               sequence := seq |} |} in
  (crow_post_id row = id -> comments_of id db' ≡ₚ (k, row) :: comments_of id db) /\
  (crow_post_id row <> id -> comments_of id db' = comments_of id db).
Proof.
  intros Hfree db'. unfold comments_of. simpl.
  pose proof (table_scan_insert (comments db) k row seq Hfree) as Hperm.
  split; intros Hrow.
  - rewrite Hperm. by rewrite filter_cons_True.
  - apply sorted_unique.
    + eapply sorted_sublist; [apply sublist_filter|apply table_scan_sorted].
    + eapply sorted_sublist; [apply sublist_filter|apply table_scan_sorted].
    + rewrite Hperm. by rewrite filter_cons_False.
Qed.

(** ** The existence check, run *)

Lemma backend_get_post_or_404_found (id : Z) (db : DB) (r : PostRow) :
  table_get id (posts db) = Some r ->
  Backend.get_post_or_404 id db
  = (db, Return (PostPublic_of_row id r (CommentDB_of_row <$> comments_of id db))).
Proof. intros H. unfold_backend. simpl. by rewrite H. Qed.

Lemma backend_get_post_or_404_missing (id : Z) (db : DB) :
  table_get id (posts db) = None ->
  int64 id ->
  Backend.get_post_or_404 id db = (db, Raise (HTTPException 404 None)).
Proof. intros H Hi. unfold_backend. simpl. rewrite H. by rewrite decide_True. Qed.

Lemma backend_get_post_or_404_overflow (id : Z) (db : DB) :
  table_get id (posts db) = None ->
  ~ int64 id ->
  Backend.get_post_or_404 id db = (db, Raise OverflowError).
Proof. intros H Hi. unfold_backend. simpl. rewrite H. by rewrite decide_False. Qed.

(** Whatever the identifier, a check that finds no post leaves the store as
    it is and returns nothing. *)
Lemma backend_get_post_or_404_fails (id : Z) (db : DB) :
  table_get id (posts db) = None ->
  exists e, Backend.get_post_or_404 id db = (db, Raise e).
Proof.
  intros H. destruct (decide (int64 id)) as [Hi|Hi].
  - eexists. by apply backend_get_post_or_404_missing.
  - eexists. by apply backend_get_post_or_404_overflow.
Qed.

Lemma orm_get_post_or_404_found (id : Z) (db : DB) (r : PostRow) :
  table_get id (posts db) = Some r ->
  Orm.get_post_or_404 id db
  = (db, Return {| Orm.pt_id := id;
                   Orm.pt_publication_date := aware_utc (row_publication_date r);
                   Orm.pt_title := row_title r;
                   Orm.pt_content := row_content r;
                   Orm.pt_comments :=
                     Some (Orm.CommentTortoise_of_row <$> comments_of id db) |}).
Proof. intros H. unfold_orm. simpl. by rewrite H. Qed.

Lemma orm_get_post_or_404_missing (id : Z) (db : DB) :
  table_get id (posts db) = None ->
  Orm.get_post_or_404 id db = (db, Raise (HTTPException 404 None)).
Proof. intros H. unfold_orm. simpl. by rewrite H. Qed.

(** What each variant makes of the rows a comment query returns. *)
Lemma backend_comments_stored (id : Z) (db : DB) (c : CommentDB) :
  c ∈ CommentDB_of_row <$> comments_of id db <->
  exists k row, table_get k (comments db) = Some row /\
                crow_post_id row = id /\ c = backend_comment k row.
Proof.
  rewrite list_elem_of_fmap. split.
  - intros ([k row] & -> & Hin). apply comments_of_complete in Hin as [Hk Hrow].
    by exists k, row.
  - intros (k & row & Hk & Hrow & ->). exists (k, row). split; [done|].
    by apply comments_of_complete.
Qed.

Lemma orm_comments_stored (id : Z) (db : DB) (c : Orm.CommentTortoise) :
  c ∈ Orm.CommentTortoise_of_row <$> comments_of id db <->
  exists k row, table_get k (comments db) = Some row /\
                crow_post_id row = id /\ c = orm_comment k row.
Proof.
  rewrite list_elem_of_fmap. split.
  - intros ([k row] & -> & Hin). apply comments_of_complete in Hin as [Hk Hrow].
    by exists k, row.
  - intros (k & row & Hk & Hrow & ->). exists (k, row). split; [done|].
    by apply comments_of_complete.
Qed.

Lemma backend_comments_ascending (id : Z) (db : DB) :
  StronglySorted Z.lt (cd_id <$> (CommentDB_of_row <$> comments_of id db)).
Proof.
  rewrite <- list_fmap_compose.
  rewrite (list_fmap_ext _ fst (comments_of id db)) by (by intros _ [k c] _).
  apply sorted_keys, comments_of_sorted.
Qed.

Lemma orm_comments_ascending (id : Z) (db : DB) :
  StronglySorted Z.lt (Orm.ct_id <$> (Orm.CommentTortoise_of_row <$> comments_of id db)).
Proof.
  rewrite <- list_fmap_compose.
  rewrite (list_fmap_ext _ fst (comments_of id db)) by (by intros _ [k c] _).
  apply sorted_keys, comments_of_sorted.
Qed.

(** ** Pagination *)

(** C3: for skip >= 0 and limit >= 0 the pagination helper of either variant
    returns (skip, min(100, limit)): the page size is exactly 100 for every
    limit above 100, both values are the inputs for a limit in [0,100], and
    skip is returned as given. *)
Theorem pagination_caps_limit (skip limit : Z) :
  0 <= skip -> 0 <= limit ->
  Backend.pagination skip limit = (skip, Z.min 100 limit) /\
  Orm.pagination skip limit = (skip, Z.min 100 limit) /\
  (100 < limit ->
   Backend.pagination skip limit = (skip, 100) /\
   Orm.pagination skip limit = (skip, 100)) /\
  (limit <= 100 ->
   Backend.pagination skip limit = (skip, limit) /\
   Orm.pagination skip limit = (skip, limit)).
Proof.
  intros _ _. unfold Backend.pagination, Orm.pagination. simpl.
  repeat split; f_equal; lia.
Qed.

Lemma pagination_caps_limit_witness :
  Backend.pagination 100000 250 = (100000, 100) /\
  Orm.pagination 100000 250 = (100000, 100).
Proof.
  destruct (pagination_caps_limit 100000 250) as (_ & _ & H & _); [lia|lia|].
  apply H. lia.
Defined.

(** ** The existence check *)

(** C4, as the claim has it, fails in the query-builder variant: no post has
    the identifier 2^64, and the helper does not signal 404 for it; binding
    the identifier to the statement raises [OverflowError], which the
    boundary answers with 500. *)
Lemma get_post_or_404_overflow_example :
  table_get huge_id (posts empty_db) = None /\
  Backend.get_post_or_404 huge_id empty_db = (empty_db, Raise OverflowError) /\
  status_code (BackendApp.get_posts huge_id empty_db).2 = 500 /\
  Orm.get_post_or_404 huge_id empty_db = (empty_db, Raise (HTTPException 404 None)).
Proof. by vm_compute. Qed.

(** C4, amended: the ORM helper raises the 404 [HTTPException] exactly when
    no post has the identifier; the query-builder helper raises it exactly
    when no post has the identifier and the identifier is a 64-bit integer,
    and fails with [OverflowError] (answered 500) for any other identifier
    that names no post.  When the post exists, each helper returns the
    identifier, the stored title and content, the stored date as the variant
    reads it, and as comments exactly the stored comment rows whose [post_id]
    is the identifier, each once, in ascending order of their keys.  The
    store is only read. *)
Theorem get_post_or_404_spec (id : Z) (db : DB) :
  (result_of (Backend.get_post_or_404 id) db = Raise (HTTPException 404 None)
   <-> table_get id (posts db) = None /\ int64 id) /\
  (result_of (Backend.get_post_or_404 id) db = Raise OverflowError
   <-> table_get id (posts db) = None /\ ~ int64 id) /\
  (result_of (Orm.get_post_or_404 id) db = Raise (HTTPException 404 None)
   <-> table_get id (posts db) = None) /\
  (forall A status (serialize : A -> option value),
     status_code (respond status serialize (Raise (HTTPException 404 None))) = 404 /\
     status_code (respond_tortoise status serialize (Raise (HTTPException 404 None)))
     = 404 /\
     status_code (respond status serialize (Raise OverflowError)) = 500) /\
  store_after (Backend.get_post_or_404 id) db = db /\
  store_after (Orm.get_post_or_404 id) db = db /\
  (forall r, table_get id (posts db) = Some r ->
     (exists post,
        result_of (Backend.get_post_or_404 id) db = Return post /\
        pp_id post = id /\
        pp_title post = row_title r /\
        pp_content post = row_content r /\
        pp_publication_date post = naive (row_publication_date r) /\
        (forall c, c ∈ pp_comments post <->
           exists k row, table_get k (comments db) = Some row /\
                         crow_post_id row = id /\ c = backend_comment k row) /\
        StronglySorted Z.lt (cd_id <$> pp_comments post) /\
        Forall (fun c => cd_post_id c = id) (pp_comments post)) /\
     (exists post cs,
        result_of (Orm.get_post_or_404 id) db = Return post /\
        Orm.pt_id post = id /\
        Orm.pt_title post = row_title r /\
        Orm.pt_content post = row_content r /\
        Orm.pt_publication_date post = aware_utc (row_publication_date r) /\
        Orm.pt_comments post = Some cs /\
        (forall c, c ∈ cs <->
           exists k row, table_get k (comments db) = Some row /\
                         crow_post_id row = id /\ c = orm_comment k row) /\
        StronglySorted Z.lt (Orm.ct_id <$> cs) /\
        Forall (fun c => Orm.ct_post_id c = id) cs)).
Proof.
  destruct (table_get id (posts db)) as [r|] eqn:E.
  - unfold result_of, store_after.
    rewrite (backend_get_post_or_404_found id db r E),
      (orm_get_post_or_404_found id db r E). simpl.
    split_and!; try done.
    + split; [done|]. by intros [? _].
    + split; [done|]. by intros [? _].
    + intros r' [= <-]. split.
      * eexists. split_and!; try reflexivity; simpl.
        -- apply backend_comments_stored.
        -- apply backend_comments_ascending.
        -- apply Forall_fmap. eapply Forall_impl; [apply comments_of_reference|done].
      * eexists _, _. split_and!; try reflexivity; simpl.
        -- apply orm_comments_stored.
        -- apply orm_comments_ascending.
        -- apply Forall_fmap. eapply Forall_impl; [apply comments_of_reference|done].
  - unfold result_of, store_after.
    rewrite (orm_get_post_or_404_missing id db E).
    destruct (decide (int64 id)) as [Hi|Hi].
    + rewrite (backend_get_post_or_404_missing id db E Hi). simpl.
      split_and!; try done.
      split; [done|]. by intros [_ ?].
    + rewrite (backend_get_post_or_404_overflow id db E Hi). simpl.
      split_and!; try done.
      split; [done|]. by intros [_ ?].
Qed.

Lemma get_post_or_404_spec_witness :
  exists post,
    result_of (Backend.get_post_or_404 1) sample_db = Return post /\
    pp_title post = "A" /\
    (forall c, c ∈ pp_comments post <->
       exists k row, table_get k (comments sample_db) = Some row /\
                     crow_post_id row = 1 /\ c = backend_comment k row).
Proof.
  destruct (get_post_or_404_spec 1 sample_db) as (_ & _ & _ & _ & _ & _ & H).
  destruct (H (PostRow_of_create sample_post)) as [(post & Hr & _ & Ht & _ & _ & Hc & _) _];
    [reflexivity|].
  exists post. by split_and!.
Defined.

(** ** Creating a comment *)

(** [create_comment], run on an existing post. *)
Lemma backend_create_comment_run (comment : CommentCreate) (db : DB) (r : PostRow) :
  table_get (cc_post_id comment) (posts db) = Some r ->
  let k := next_id (comments db) in
  Backend.create_comment comment db
  = ({| posts := posts db;
        comments := {| rows := <[k := CommentRow_of_create comment]>
                                 (rows (comments db));
                       sequence := k |} |},
     Return {| cd_post_id := cc_post_id comment;
               cd_publication_date := naive (wall (cc_publication_date comment));
               cd_content := cc_content comment;
               cd_id := k |}).
Proof.
  intros H k. unfold_backend. simpl. rewrite H. simpl.
  unfold table_get. simpl. fold k. by rewrite lookup_insert_eq.
Qed.

Lemma orm_create_comment_run (comment : CommentCreate) (db : DB) (r : PostRow) :
  table_get (cc_post_id comment) (posts db) = Some r ->
  let k := next_id (comments db) in
  Orm.create_comment comment db
  = ({| posts := posts db;
        comments := {| rows := <[k := Orm.CommentRow_of_create comment]>
                                 (rows (comments db));
                       sequence := k |} |},
     Return {| cd_post_id := cc_post_id comment;
               cd_publication_date := aware_utc (utc_wall (cc_publication_date comment));
               cd_content := cc_content comment;
               cd_id := k |}).
Proof.
  intros H k. unfold_orm. simpl. rewrite H. simpl. by rewrite H.
Qed.

(** [create_comment], run on a [post_id] that names no post. *)
Lemma backend_create_comment_missing (comment : CommentCreate) (db : DB) :
  table_get (cc_post_id comment) (posts db) = None ->
  Backend.create_comment comment db
  = (db, if decide (int64 (cc_post_id comment))
         then Raise (HTTPException 400 (Some Backend.create_comment_detail))
         else Raise OverflowError).
Proof.
  intros H. unfold_backend. simpl. rewrite H. by case_decide.
Qed.

Lemma orm_create_comment_missing (comment : CommentCreate) (db : DB) :
  table_get (cc_post_id comment) (posts db) = None ->
  Orm.create_comment comment db
  = (db, Raise (HTTPException 400 (Some Orm.create_comment_detail))).
Proof. intros H. unfold_orm. simpl. by rewrite H. Qed.

(** C1, as the claim has it, fails in the query-builder variant: a comment
    whose [post_id] is 2^64 names no post, and is answered 500 (the lookup
    raises [OverflowError]), not 400. *)
Lemma create_comment_overflow_example :
  table_get (cc_post_id huge_comment) (posts empty_db) = None /\
  BackendApp.create_comment huge_comment empty_db
  = (empty_db, {| status_code := 500;
                  content := Some (VStr "Internal Server Error") |}).
Proof. by vm_compute. Qed.

(** C1, amended: a comment whose [post_id] names no post is answered 400 and
    the store is left as it was, in the ORM variant always and in the
    query-builder variant when the [post_id] is a 64-bit integer (otherwise
    the answer is 500, the store still as it was).  When the post exists the
    comment row is inserted under a new key and the stored comment, the
    submitted [post_id] and content with that key as [id], is returned with
    201; the date is stored and returned as the variant keeps it: its
    wall-clock reading without offset (query-builder), its UTC reading with
    offset 0 (ORM). *)
Theorem create_comment_requires_post (comment : CommentCreate) (db : DB) :
  (table_get (cc_post_id comment) (posts db) = None ->
   OrmApp.create_comment comment db
   = (db, {| status_code := 400;
             content :=
               Some (VDict [("detail",
                             VStr "Post <built-in function id> does not exist")]) |}) /\
   (int64 (cc_post_id comment) ->
    BackendApp.create_comment comment db
    = (db, {| status_code := 400;
              content :=
                Some (VDict [("detail",
                              VStr "Post <built-in function id> does not exist")]) |})) /\
   (~ int64 (cc_post_id comment) ->
    BackendApp.create_comment comment db
    = (db, {| status_code := 500;
              content := Some (VStr "Internal Server Error") |}))) /\
  (forall r, table_get (cc_post_id comment) (posts db) = Some r ->
   let k := next_id (comments db) in
   let row_b := {| crow_post_id := cc_post_id comment;
                   crow_publication_date := wall (cc_publication_date comment);
                   crow_content := cc_content comment |} in
   let row_o := {| crow_post_id := cc_post_id comment;
                   crow_publication_date := utc_wall (cc_publication_date comment);
                   crow_content := cc_content comment |} in
   let db_b := {| posts := posts db;
                  comments := {| rows := <[k := row_b]> (rows (comments db));
                                 sequence := k |} |} in
   let db_o := {| posts := posts db;
                  comments := {| rows := <[k := row_o]> (rows (comments db));
                                 sequence := k |} |} in
   let stored_b := {| cd_post_id := cc_post_id comment;
                      cd_publication_date := naive (wall (cc_publication_date comment));
                      cd_content := cc_content comment;
                      cd_id := k |} in
   let stored_o := {| cd_post_id := cc_post_id comment;
                      cd_publication_date :=
                        aware_utc (utc_wall (cc_publication_date comment));
                      cd_content := cc_content comment;
                      cd_id := k |} in
   table_get k (comments db) = None /\
   table_get k (comments db_b) = Some row_b /\
   table_get k (comments db_o) = Some row_o /\
   (forall k', k' <> k ->
      table_get k' (comments db_b) = table_get k' (comments db) /\
      table_get k' (comments db_o) = table_get k' (comments db)) /\
   Backend.create_comment comment db = (db_b, Return stored_b) /\
   Orm.create_comment comment db = (db_o, Return stored_o) /\
   BackendApp.create_comment comment db
   = (db_b, {| status_code := 201;
               content :=
                 Some (VDict [("post_id", VInt (cc_post_id comment));
                              ("publication_date",
                               VDatetime (naive (wall (cc_publication_date comment))));
                              ("content", VStr (cc_content comment));
                              ("id", VInt k)]) |}) /\
   OrmApp.create_comment comment db
   = (db_o, {| status_code := 201;
               content :=
                 Some (VDict [("post_id", VInt (cc_post_id comment));
                              ("publication_date",
                               VDatetime
                                 (aware_utc (utc_wall (cc_publication_date comment))));
                              ("content", VStr (cc_content comment));
                              ("id", VInt k)]) |})).
Proof.
  split.
  - intros H. unfold BackendApp.create_comment, OrmApp.create_comment,
      endpoint, endpoint_tortoise.
    rewrite (backend_create_comment_missing comment db H),
      (orm_create_comment_missing comment db H).
    split_and!; [done| |]; intros Hi.
    + by rewrite decide_True.
    + by rewrite decide_False.
  - intros r H k row_b row_o db_b db_o stored_b stored_o.
    pose proof (backend_create_comment_run comment db r H) as Hb.
    pose proof (orm_create_comment_run comment db r H) as Ho.
    simpl in Hb, Ho. fold k in Hb, Ho.
    split_and!; try done.
    + apply next_id_fresh.
    + unfold table_get. simpl. apply lookup_insert_eq.
    + unfold table_get. simpl. apply lookup_insert_eq.
    + intros k' Hne. unfold table_get. simpl.
      by rewrite !lookup_insert_ne.
    + unfold BackendApp.create_comment, endpoint. by rewrite Hb.
    + unfold OrmApp.create_comment, endpoint_tortoise. by rewrite Ho.
Qed.

Lemma create_comment_requires_post_witness :
  status_code (BackendApp.create_comment sample_comment empty_db).2 = 400 /\
  (BackendApp.create_comment sample_comment empty_db).1 = empty_db /\
  status_code (OrmApp.create_comment sample_comment sample_db).2 = 201.
Proof.
  destruct (create_comment_requires_post sample_comment empty_db) as [H _].
  destruct H as (_ & Hb & _); [reflexivity|].
  destruct (create_comment_requires_post sample_comment sample_db) as [_ H].
  destruct (H (PostRow_of_create sample_post)) as (_ & _ & _ & _ & _ & _ & _ & Ho);
    [reflexivity|].
  rewrite Ho. rewrite Hb by (unfold int64; simpl; lia).
  by split_and!.
Defined.

(** ** Deleting a post *)

Lemma backend_delete_post_run (id : Z) (db : DB) (r : PostRow) :
  table_get id (posts db) = Some r ->
  Backend.delete_post id db
  = ({| posts := table_delete id (posts db); comments := comments db |}, Return tt).
Proof.
  intros H. unfold Backend.delete_post, bind.
  by rewrite (backend_get_post_or_404_found id db r H).
Qed.

Lemma orm_delete_post_run (id : Z) (db : DB) (r : PostRow) :
  table_get id (posts db) = Some r ->
  Orm.delete_post id db
  = ({| posts := table_delete id (posts db);
        comments := {| rows := filter (fun kr => crow_post_id kr.2 <> id)
                                 (rows (comments db));
                       sequence := sequence (comments db) |} |}, Return tt).
Proof.
  intros H. unfold Orm.delete_post, bind.
  by rewrite (orm_get_post_or_404_found id db r H).
Qed.

Lemma backend_delete_post_missing (id : Z) (db : DB) :
  table_get id (posts db) = None ->
  Backend.delete_post id db
  = (db, if decide (int64 id) then Raise (HTTPException 404 None)
         else Raise OverflowError).
Proof.
  intros H. unfold Backend.delete_post, bind. case_decide.
  - by rewrite (backend_get_post_or_404_missing id db H).
  - by rewrite (backend_get_post_or_404_overflow id db H).
Qed.

Lemma orm_delete_post_missing (id : Z) (db : DB) :
  table_get id (posts db) = None ->
  Orm.delete_post id db = (db, Raise (HTTPException 404 None)).
Proof.
  intros H. unfold Orm.delete_post, bind.
  by rewrite (orm_get_post_or_404_missing id db H).
Qed.

(** C6, as the claim has it, fails in the query-builder variant: the
    identifier 2^64 names no post, and its delete is answered 500, not 404. *)
Lemma delete_post_overflow_example :
  table_get huge_id (posts sample_db) = None /\
  BackendApp.delete_post huge_id sample_db
  = (sample_db, {| status_code := 500;
                   content := Some (VStr "Internal Server Error") |}).
Proof. by vm_compute. Qed.

(** C6, amended: deleting an existing post removes its row, and no other
    row of the posts table, and is answered 204 with no body; afterwards the
    existence check on the same identifier raises 404 (in the query-builder
    variant for a 64-bit identifier, which every stored key is), [GET
    /posts/{id}] of the ORM variant answers 404, and a second delete answers
    404.  For an identifier that names no post the delete itself is answered
    404 and the store is left as it was, in the ORM variant always and in the
    query-builder variant when the identifier is a 64-bit integer; otherwise
    the query-builder variant answers 500, the store still as it was. *)
Theorem delete_post_then_fetch (id : Z) (db : DB) :
  (forall r, table_get id (posts db) = Some r ->
   let db_b := (BackendApp.delete_post id db).1 in
   let db_o := (OrmApp.delete_post id db).1 in
   (BackendApp.delete_post id db).2 = {| status_code := 204; content := None |} /\
   (OrmApp.delete_post id db).2 = {| status_code := 204; content := None |} /\
   table_get id (posts db_b) = None /\
   table_get id (posts db_o) = None /\
   (forall k, k <> id ->
      table_get k (posts db_b) = table_get k (posts db) /\
      table_get k (posts db_o) = table_get k (posts db)) /\
   result_of (Orm.get_post_or_404 id) db_o = Raise (HTTPException 404 None) /\
   OrmApp.get_post id db_o
   = (db_o, {| status_code := 404;
               content := Some (VDict [("detail", VStr "Not Found")]) |}) /\
   OrmApp.delete_post id db_o
   = (db_o, {| status_code := 404;
               content := Some (VDict [("detail", VStr "Not Found")]) |}) /\
   (int64 id ->
    result_of (Backend.get_post_or_404 id) db_b = Raise (HTTPException 404 None) /\
    BackendApp.delete_post id db_b
    = (db_b, {| status_code := 404;
                content := Some (VDict [("detail", VStr "Not Found")]) |}))) /\
  (table_get id (posts db) = None ->
   OrmApp.delete_post id db
   = (db, {| status_code := 404;
             content := Some (VDict [("detail", VStr "Not Found")]) |}) /\
   (int64 id ->
    BackendApp.delete_post id db
    = (db, {| status_code := 404;
              content := Some (VDict [("detail", VStr "Not Found")]) |})) /\
   (~ int64 id ->
    BackendApp.delete_post id db
    = (db, {| status_code := 500;
              content := Some (VStr "Internal Server Error") |}))).
Proof.
  split.
  - intros r H db_b db_o.
    assert (Hb : BackendApp.delete_post id db
                 = ({| posts := table_delete id (posts db); comments := comments db |},
                    {| status_code := 204; content := None |})).
    { unfold BackendApp.delete_post, endpoint.
      by rewrite (backend_delete_post_run id db r H). }
    assert (Ho : OrmApp.delete_post id db
                 = ({| posts := table_delete id (posts db);
                       comments := {| rows := filter (fun kr => crow_post_id kr.2 <> id)
                                                (rows (comments db));
                                      sequence := sequence (comments db) |} |},
                    {| status_code := 204; content := None |})).
    { unfold OrmApp.delete_post, endpoint_tortoise.
      by rewrite (orm_delete_post_run id db r H). }
    assert (Hgb : table_get id (posts db_b) = None).
    { unfold db_b. rewrite Hb. unfold table_get. simpl. apply lookup_delete_eq. }
    assert (Hgo : table_get id (posts db_o) = None).
    { unfold db_o. rewrite Ho. unfold table_get. simpl. apply lookup_delete_eq. }
    split_and!; try done.
    + by rewrite Hb.
    + by rewrite Ho.
    + intros k Hne. unfold db_b, db_o. rewrite Hb, Ho. unfold table_get. simpl.
      by rewrite lookup_delete_ne.
    + unfold result_of. by rewrite (orm_get_post_or_404_missing id db_o Hgo).
    + unfold OrmApp.get_post, endpoint_tortoise, Orm.get_post, bind.
      by rewrite (orm_get_post_or_404_missing id db_o Hgo).
    + unfold OrmApp.delete_post, endpoint_tortoise.
      by rewrite (orm_delete_post_missing id db_o Hgo).
    + intros Hi. split.
      * unfold result_of. by rewrite (backend_get_post_or_404_missing id db_b Hgb Hi).
      * unfold BackendApp.delete_post, endpoint.
        rewrite (backend_delete_post_missing id db_b Hgb). by rewrite decide_True.
  - intros H. unfold OrmApp.delete_post, BackendApp.delete_post, endpoint,
      endpoint_tortoise.
    rewrite (orm_delete_post_missing id db H), (backend_delete_post_missing id db H).
    split_and!; [done| |]; intros Hi.
    + by rewrite decide_True.
    + by rewrite decide_False.
Qed.

Lemma delete_post_then_fetch_witness :
  (BackendApp.delete_post 1 sample_db).2 = {| status_code := 204; content := None |} /\
  status_code (OrmApp.get_post 1 (OrmApp.delete_post 1 sample_db).1).2 = 404 /\
  (OrmApp.delete_post 1 empty_db).1 = empty_db.
Proof.
  destruct (delete_post_then_fetch 1 sample_db) as [H _].
  destruct (H (PostRow_of_create sample_post))
    as (Hb & _ & _ & _ & _ & _ & Ho & _); [reflexivity|].
  destruct (delete_post_then_fetch 1 empty_db) as [_ H'].
  destruct H' as [Hd _]; [reflexivity|].
  split_and!; [exact Hb|by rewrite Ho|by rewrite Hd].
Defined.

(** C9: for an existing post that a stored comment references, the
    query-builder variant's delete runs the one [DELETE] on [posts] and leaves
    [comments] as it was, so the comment stays stored; in the ORM variant the
    foreign key carries the default policy (cascade) and the delete removes
    exactly the comments that reference the post.  The two resulting comment
    tables differ. *)
Theorem delete_post_dependent_comments (id : Z) (db : DB) (k : Z) (c : CommentRow) :
  is_Some (table_get id (posts db)) ->
  table_get k (comments db) = Some c ->
  crow_post_id c = id ->
  let db_b := store_after (Backend.delete_post id) db in
  let db_o := store_after (Orm.delete_post id) db in
  db_b = {| posts := table_delete id (posts db); comments := comments db |} /\
  table_get k (comments db_b) = Some c /\
  Orm.fk_on_delete Orm.CommentTortoise_post = Orm.CASCADE /\
  posts db_o = table_delete id (posts db) /\
  table_get k (comments db_o) = None /\
  (forall k' c',
     table_get k' (comments db_o) = Some c' <->
     table_get k' (comments db) = Some c' /\ crow_post_id c' <> id) /\
  comments db_b <> comments db_o.
Proof.
  intros [r Hr] Hk Hc db_b db_o.
  assert (Hb : db_b = {| posts := table_delete id (posts db); comments := comments db |}).
  { unfold db_b, store_after. by rewrite (backend_delete_post_run id db r Hr). }
  assert (Ho : db_o = {| posts := table_delete id (posts db);
                         comments := {| rows := filter (fun kr => crow_post_id kr.2 <> id)
                                                  (rows (comments db));
                                        sequence := sequence (comments db) |} |}).
  { unfold db_o, store_after. by rewrite (orm_delete_post_run id db r Hr). }
  assert (Hgone : table_get k (comments db_o) = None).
  { rewrite Ho. unfold table_get in *. simpl.
    apply map_lookup_filter_None. right. intros c' Hc'. simplify_eq. simpl. tauto. }
  split_and!; try done.
  - by rewrite Hb.
  - by rewrite Ho.
  - intros k' c'. rewrite Ho. unfold table_get. simpl.
    by rewrite map_lookup_filter_Some.
  - intros Heq. rewrite Hb in Heq. simpl in Heq.
    rewrite <- Heq in Hgone. congruence.
Qed.

Lemma delete_post_dependent_comments_witness :
  table_get 1 (comments (store_after (Backend.delete_post 1) sample_db))
  = Some (CommentRow_of_create sample_comment) /\
  table_get 1 (comments (store_after (Orm.delete_post 1) sample_db)) = None.
Proof.
  destruct (delete_post_dependent_comments 1 sample_db 1
              (CommentRow_of_create sample_comment))
    as (_ & Hb & _ & _ & Ho & _); [by eexists|reflexivity|reflexivity|].
  by split.
Defined.

(** ** The detail of the 400 *)

Lemma has_digit_app (s t : string) :
  has_digit (s ++ t) = has_digit s || has_digit t.
Proof.
  induction s as [|c s IH]; simpl; [done|]. rewrite IH. by rewrite orb_assoc.
Qed.

Lemma string_of_uint_head (d : Decimal.uint) :
  exists c s, NilZero.string_of_uint d = String c s /\ is_digit c = true.
Proof. destruct d; simpl; eauto. Qed.

(** The decimal rendering of an integer always shows a digit. *)
Lemma str_int_has_digit (n : Z) : has_digit (str_int n) = true.
Proof.
  unfold str_int, NilZero.string_of_int.
  destruct (Z.to_int n) as [d|d];
    destruct (string_of_uint_head d) as (c & s & -> & Hc); simpl; rewrite Hc;
    by rewrite ?orb_true_r.
Qed.

Lemma substring_has_digit (s t : string) :
  substring s t -> has_digit s = true -> has_digit t = true.
Proof.
  intros (pre & suf & ->) H. rewrite !has_digit_app, H.
  by rewrite orb_true_r.
Qed.

(** C10, as the claim has it, fails in the query-builder variant: 42 and
    2^64 are two unknown [post_id]s, and their error responses differ (400
    with the detail, 500 without). *)
Lemma create_comment_responses_differ_example :
  table_get 42 (posts empty_db) = None /\
  table_get huge_id (posts empty_db) = None /\
  (BackendApp.create_comment
     {| cc_post_id := 42; cc_publication_date := naive 8; cc_content := "C" |}
     empty_db).2
  = {| status_code := 400;
       content :=
         Some (VDict [("detail",
                       VStr "Post <built-in function id> does not exist")]) |} /\
  (BackendApp.create_comment huge_comment empty_db).2
  = {| status_code := 500; content := Some (VStr "Internal Server Error") |}.
Proof. by vm_compute. Qed.

(** C10, amended: in both variants the detail of the 400 raised for an
    unknown [post_id] is one constant string, in which [id] is the builtin
    function and not the comment's [post_id]: the rendering of the [post_id]
    does not occur in it.  In the ORM variant any two requests with an
    unknown [post_id] get the same response; in the query-builder variant
    any two whose unknown [post_id]s are 64-bit integers do. *)
Theorem create_comment_detail_constant (comment : CommentCreate) (db : DB) :
  table_get (cc_post_id comment) (posts db) = None ->
  Backend.create_comment_detail = "Post <built-in function id> does not exist" /\
  Orm.create_comment_detail = "Post <built-in function id> does not exist" /\
  result_of (Orm.create_comment comment) db
  = Raise (HTTPException 400 (Some "Post <built-in function id> does not exist")) /\
  (int64 (cc_post_id comment) ->
   result_of (Backend.create_comment comment) db
   = Raise (HTTPException 400 (Some "Post <built-in function id> does not exist"))) /\
  ~ substring (str_int (cc_post_id comment)) Backend.create_comment_detail /\
  ~ substring (str_int (cc_post_id comment)) Orm.create_comment_detail /\
  (forall comment' db',
     table_get (cc_post_id comment') (posts db') = None ->
     (OrmApp.create_comment comment' db').2
     = (OrmApp.create_comment comment db).2 /\
     (int64 (cc_post_id comment) -> int64 (cc_post_id comment') ->
      (BackendApp.create_comment comment' db').2
      = (BackendApp.create_comment comment db).2)).
Proof.
  intros H. split_and!; try reflexivity.
  - unfold result_of. by rewrite (orm_create_comment_missing comment db H).
  - intros Hi. unfold result_of.
    rewrite (backend_create_comment_missing comment db H). by rewrite decide_True.
  - intros Hs. apply substring_has_digit in Hs; [|apply str_int_has_digit].
    vm_compute in Hs. discriminate.
  - intros Hs. apply substring_has_digit in Hs; [|apply str_int_has_digit].
    vm_compute in Hs. discriminate.
  - intros comment' db' H'.
    unfold BackendApp.create_comment, OrmApp.create_comment, endpoint,
      endpoint_tortoise.
    rewrite (orm_create_comment_missing comment db H),
      (orm_create_comment_missing comment' db' H'),
      (backend_create_comment_missing comment db H),
      (backend_create_comment_missing comment' db' H').
    split; [done|]. intros Hi Hi'. by rewrite !decide_True.
Qed.

Lemma create_comment_detail_constant_witness :
  (BackendApp.create_comment
     {| cc_post_id := 42; cc_publication_date := naive 9; cc_content := "D" |}
     sample_db).2
  = (BackendApp.create_comment sample_comment empty_db).2.
Proof.
  destruct (create_comment_detail_constant sample_comment empty_db)
    as (_ & _ & _ & _ & _ & _ & H); [reflexivity|].
  apply (H {| cc_post_id := 42; cc_publication_date := naive 9; cc_content := "D" |}
           sample_db); [reflexivity|unfold int64; simpl; lia..].
Defined.

(** ** Partial update *)

(** What the assignments of a body do to a row. *)
Lemma set_columns_frame (u : PostPartialUpdate) (r r' : PostRow) :
  set_columns r (dict_exclude_unset u) = Some r' ->
  row_publication_date r' = row_publication_date r /\
  (pu_title u = None -> row_title r' = row_title r) /\
  (pu_content u = None -> row_content r' = row_content r) /\
  (forall t, pu_title u = Some (Some t) -> row_title r' = t) /\
  (forall c, pu_content u = Some (Some c) -> row_content r' = c).
Proof.
  destruct u as [[[t|]|] [[c|]|]]; simpl; intros Hset; simplify_eq; simpl;
    split_and!; intros; by simplify_eq.
Qed.

Lemma set_columns_no_null (u : PostPartialUpdate) (r : PostRow) :
  no_null u -> is_Some (set_columns r (dict_exclude_unset u)).
Proof.
  intros [Ht Hc]. destruct u as [[[t|]|] [[c|]|]]; simpl in *; by eauto.
Qed.

(** The title of the row a body leaves fits, when the title it sets and the
    title it finds do. *)
Lemma set_columns_title_fits (u : PostPartialUpdate) (r r' : PostRow) :
  set_columns r (dict_exclude_unset u) = Some r' ->
  title_set_fits u ->
  (String.length (row_title r) <= 255)%nat ->
  (String.length (row_title r') <= 255)%nat.
Proof.
  intros Hset Hfit Hr.
  destruct (set_columns_frame u r r' Hset) as (_ & Hnone & _ & Hsome & _).
  destruct (pu_title u) as [[t|]|] eqn:E.
  - rewrite (Hsome t eq_refl). by apply Hfit.
  - destruct u as [[[t|]|] [[c|]|]]; simpl in *; simplify_eq.
  - by rewrite Hnone.
Qed.

(** The update handlers, run on an existing post. *)
Lemma backend_update_post_run (u : PostPartialUpdate) (id : Z) (db : DB) (r : PostRow) :
  table_get id (posts db) = Some r ->
  Backend.update_post u id db
  = if decide (dict_exclude_unset u = []) then (db, Raise OperationalError)
    else
      match set_columns r (dict_exclude_unset u) with
      | Some r' =>
          ({| posts := {| rows := <[id := r']> (rows (posts db));
                          sequence := sequence (posts db) |};
              comments := comments db |},
           Return (PostPublic_of_row id r' (CommentDB_of_row <$> comments_of id db)))
      | None => (db, Raise IntegrityError)
      end.
Proof.
  intros H. unfold Backend.update_post, bind.
  rewrite (backend_get_post_or_404_found id db r H). simpl.
  unfold update_post_values.
  destruct (dict_exclude_unset u) as [|kv values] eqn:Hu.
  - by rewrite decide_True.
  - rewrite decide_False by done. rewrite H.
    destruct (set_columns r (kv :: values)) as [r'|]; [|done].
    rewrite (backend_get_post_or_404_found id _ r'); [done|].
    unfold table_get. simpl. apply lookup_insert_eq.
Qed.

Lemma orm_update_post_run (u : PostPartialUpdate) (id : Z) (db : DB) (r : PostRow) :
  table_get id (posts db) = Some r ->
  Orm.update_post u id db
  = match set_columns r (dict_exclude_unset u) with
    | Some r' =>
        if decide (String.length (row_title r') <= Orm.title_max_length)%nat then
          ({| posts := {| rows := alter (fun _ => r') id (rows (posts db));
                          sequence := sequence (posts db) |};
              comments := comments db |},
           Return {| pd_title := row_title r'; pd_content := row_content r';
                     pd_publication_date := aware_utc (row_publication_date r');
                     pd_id := id |})
        else (db, Raise ValidationError)
    | None =>
        (db, Raise (if decide (title_set_fits u) then ValueError else ValidationError))
    end.
Proof.
  intros H. unfold Orm.update_post, bind.
  rewrite (orm_get_post_or_404_found id db r H).
  destruct r as [d t0 c0].
  destruct u as [[[t|]|] [[c|]|]]; simpl; try reflexivity.
  all: unfold Orm.set_attribute, Orm.save, Orm.PostRow_of_entity, utc_wall,
         ret, raise, title_set_fits_dec; simpl.
  all: repeat (case_decide; simpl); rewrite ?Z.sub_0_r; try done.
  all: exfalso; unfold title_set_fits, Orm.title_max_length in *; simpl in *.
  all: first [ match goal with
               | Hno : ~ (forall t, _ -> _) |- _ => apply Hno; by intros ? [= <-]
               end
             | match goal with
               | Hall : forall t, _ -> _, Hno : ~ (_ <= _)%nat |- _ =>
                   by apply Hno, Hall
               end ].
Qed.

Lemma backend_update_post_missing (u : PostPartialUpdate) (id : Z) (db : DB) :
  table_get id (posts db) = None ->
  Backend.update_post u id db
  = (db, if decide (int64 id) then Raise (HTTPException 404 None)
         else Raise OverflowError).
Proof.
  intros H. unfold Backend.update_post, bind. case_decide.
  - by rewrite (backend_get_post_or_404_missing id db H).
  - by rewrite (backend_get_post_or_404_overflow id db H).
Qed.

Lemma orm_update_post_missing (u : PostPartialUpdate) (id : Z) (db : DB) :
  table_get id (posts db) = None ->
  Orm.update_post u id db = (db, Raise (HTTPException 404 None)).
Proof.
  intros H. unfold Orm.update_post, bind.
  by rewrite (orm_get_post_or_404_missing id db H).
Qed.

(** Whatever the outcome of an update, the frame holds. *)
Lemma backend_update_post_frame (u : PostPartialUpdate) (id : Z) (db : DB) (r : PostRow) :
  table_get id (posts db) = Some r ->
  only_given_fields_changed u id r db (store_after (Backend.update_post u id) db).
Proof.
  intros H. unfold store_after. rewrite (backend_update_post_run u id db r H).
  unfold only_given_fields_changed.
  case_decide; [exists r; by split_and!|].
  destruct (set_columns r (dict_exclude_unset u)) as [r'|] eqn:Hset;
    [|exists r; by split_and!].
  destruct (set_columns_frame u r r' Hset) as (Hd & Ht & Hc & _).
  exists r'. unfold table_get in *. simpl. split_and!; try done.
  - by rewrite lookup_insert_eq.
  - intros k Hk. by rewrite lookup_insert_ne.
Qed.

Lemma orm_update_post_frame (u : PostPartialUpdate) (id : Z) (db : DB) (r : PostRow) :
  table_get id (posts db) = Some r ->
  only_given_fields_changed u id r db (store_after (Orm.update_post u id) db).
Proof.
  intros H. unfold store_after. rewrite (orm_update_post_run u id db r H).
  unfold only_given_fields_changed.
  destruct (set_columns r (dict_exclude_unset u)) as [r'|] eqn:Hset;
    [|exists r; by split_and!].
  case_decide; [|exists r; by split_and!].
  destruct (set_columns_frame u r r' Hset) as (Hd & Ht & Hc & _).
  exists r'. unfold table_get in *. simpl. split_and!; try done.
  - by rewrite lookup_alter_eq, H.
  - intros k Hk. by rewrite lookup_alter_ne.
Qed.

(** C2: on an existing post, the update of either variant changes in the
    stored row only the fields the body set: an omitted title or content, the
    publication date and the key keep their values (so a title-only update
    leaves the content, and a content-only update leaves the title), and
    nothing else in the store changes, whatever the body and whether or not
    the update goes through.  The strings that a body without null sets are
    stored: by the query-builder variant always, by the ORM variant when the
    title it sets and the title it finds fit the 255 characters of the
    field.  A body that sets no field makes the query-builder variant fail
    ([OperationalError]); the ORM variant returns the post. *)
Theorem update_post_changes_only_given_fields
    (u : PostPartialUpdate) (id : Z) (db : DB) (r : PostRow) :
  table_get id (posts db) = Some r ->
  only_given_fields_changed u id r db (store_after (Backend.update_post u id) db) /\
  only_given_fields_changed u id r db (store_after (Orm.update_post u id) db) /\
  (no_null u ->
   given_fields_stored u id (store_after (Backend.update_post u id) db) /\
   (title_set_fits u -> (String.length (row_title r) <= 255)%nat ->
    given_fields_stored u id (store_after (Orm.update_post u id) db) /\
    exists returned, result_of (Orm.update_post u id) db = Return returned)) /\
  (no_null u -> dict_exclude_unset u <> [] ->
   exists returned, result_of (Backend.update_post u id) db = Return returned) /\
  (dict_exclude_unset u = [] ->
   Backend.update_post u id db = (db, Raise OperationalError)).
Proof.
  intros H. split_and!.
  - by apply backend_update_post_frame.
  - by apply orm_update_post_frame.
  - intros Hn. destruct (set_columns_no_null u r Hn) as [r' Hset].
    destruct (set_columns_frame u r r' Hset) as (_ & _ & _ & Ht' & Hc').
    unfold store_after, result_of. split.
    + rewrite (backend_update_post_run u id db r H), Hset.
      case_decide as Hu.
      * exists r. split; [done|].
        destruct u as [[t|] [c|]]; simpl in Hu; try discriminate.
        by split.
      * exists r'. unfold table_get. simpl. by rewrite lookup_insert_eq.
    + intros Hfit Hr.
      rewrite (orm_update_post_run u id db r H), Hset.
      rewrite decide_True by (by eapply set_columns_title_fits).
      split; [|by eexists].
      exists r'. unfold table_get in *. simpl. by rewrite lookup_alter_eq, H.
  - intros Hn Hu. destruct (set_columns_no_null u r Hn) as [r' Hset].
    unfold result_of. rewrite (backend_update_post_run u id db r H), Hset.
    rewrite decide_False by done. by eexists.
  - intros Hu. rewrite (backend_update_post_run u id db r H).
    by rewrite decide_True.
Qed.

Lemma update_post_changes_only_given_fields_witness :
  only_given_fields_changed
    {| pu_title := Some (Some "X"); pu_content := None |} 1
    (PostRow_of_create sample_post) sample_db
    (store_after
       (Backend.update_post {| pu_title := Some (Some "X"); pu_content := None |} 1)
       sample_db) /\
  given_fields_stored
    {| pu_title := None; pu_content := Some (Some "Y") |} 1
    (store_after
       (Orm.update_post {| pu_title := None; pu_content := Some (Some "Y") |} 1)
       sample_db).
Proof.
  split.
  - apply (update_post_changes_only_given_fields
             {| pu_title := Some (Some "X"); pu_content := None |} 1 sample_db
             (PostRow_of_create sample_post)).
    reflexivity.
  - destruct (update_post_changes_only_given_fields
                {| pu_title := None; pu_content := Some (Some "Y") |} 1 sample_db
                (PostRow_of_create sample_post)) as (_ & _ & Hs & _);
      [reflexivity|].
    destruct Hs as [_ Ho]; [by split|].
    destruct Ho as [Ho _]; [by intros t|simpl; lia|].
    exact Ho.
Defined.

(** ** Creating a post *)

Lemma empty_db_assigned : post_ids_assigned empty_db.
Proof. split; intros k x H; unfold table_get in H; simpl in H; by simplify_map_eq. Qed.

Lemma backend_create_post_run (post : PostCreate) (db : DB) :
  let k := next_id (posts db) in
  Backend.create_post post db
  = ({| posts := {| rows := <[k := PostRow_of_create post]> (rows (posts db));
                    sequence := k |};
        comments := comments db |},
     Return (PostPublic_of_row k (PostRow_of_create post)
               (CommentDB_of_row <$> comments_of k db))).
Proof.
  intros k. unfold Backend.create_post, bind, insert_post. simpl. fold k.
  rewrite (backend_get_post_or_404_found k _ (PostRow_of_create post)); [done|].
  unfold table_get. simpl. apply lookup_insert_eq.
Qed.

Lemma orm_create_post_run (post : PostCreate) (db : DB) :
  let k := next_id (posts db) in
  Orm.create_post post db
  = if decide (String.length (pc_title post) <= Orm.title_max_length)%nat then
      ({| posts := {| rows := <[k := Orm.PostRow_of_create post]> (rows (posts db));
                      sequence := k |};
          comments := comments db |},
       Return {| pd_title := pc_title post; pd_content := pc_content post;
                 pd_publication_date := aware_utc (utc_wall (pc_publication_date post));
                 pd_id := k |})
    else (db, Raise ValidationError).
Proof.
  intros k. unfold Orm.create_post, Orm.PostTortoise_create, bind.
  by case_decide.
Qed.

(** The handlers keep [post_ids_assigned]. *)
Lemma insert_post_assigned (r : PostRow) (db : DB) :
  post_ids_assigned db ->
  post_ids_assigned
    {| posts := {| rows := <[next_id (posts db) := r]> (rows (posts db));
                   sequence := next_id (posts db) |};
       comments := comments db |}.
Proof.
  intros [Hp Hc]. pose proof (next_id_above_sequence (posts db)) as Hlt.
  split; unfold table_get in *; simpl.
  - intros k x H. destruct (decide (next_id (posts db) = k)) as [<-|Hne]; [lia|].
    rewrite lookup_insert_ne in H by done. specialize (Hp k x H). lia.
  - intros k c H. specialize (Hc k c H). lia.
Qed.

Lemma backend_create_post_assigned (post : PostCreate) (db : DB) :
  post_ids_assigned db -> post_ids_assigned (store_after (Backend.create_post post) db).
Proof.
  intros H. unfold store_after. rewrite backend_create_post_run. simpl.
  by apply insert_post_assigned.
Qed.

Lemma orm_create_post_assigned (post : PostCreate) (db : DB) :
  post_ids_assigned db -> post_ids_assigned (store_after (Orm.create_post post) db).
Proof.
  intros H. unfold store_after. rewrite orm_create_post_run.
  case_decide; [|done]. simpl. by apply insert_post_assigned.
Qed.

Lemma insert_comment_assigned (row : CommentRow) (db : DB) (r : PostRow) :
  table_get (crow_post_id row) (posts db) = Some r ->
  post_ids_assigned db ->
  post_ids_assigned
    {| posts := posts db;
       comments := {| rows := <[next_id (comments db) := row]> (rows (comments db));
                      sequence := next_id (comments db) |} |}.
Proof.
  intros E [Hp Hc]. split; unfold table_get in *; simpl; [done|].
  intros k c Hk.
  destruct (decide (next_id (comments db) = k)) as [<-|Hne].
  - rewrite lookup_insert_eq in Hk. simplify_eq. by eapply Hp.
  - rewrite lookup_insert_ne in Hk by done. by eapply Hc.
Qed.

Lemma backend_create_comment_assigned (comment : CommentCreate) (db : DB) :
  post_ids_assigned db ->
  post_ids_assigned (store_after (Backend.create_comment comment) db).
Proof.
  intros Ha. unfold store_after.
  destruct (table_get (cc_post_id comment) (posts db)) as [r|] eqn:E.
  - rewrite (backend_create_comment_run comment db r E). simpl.
    by apply (insert_comment_assigned (CommentRow_of_create comment) db r).
  - by rewrite (backend_create_comment_missing comment db E).
Qed.

Lemma orm_create_comment_assigned (comment : CommentCreate) (db : DB) :
  post_ids_assigned db ->
  post_ids_assigned (store_after (Orm.create_comment comment) db).
Proof.
  intros Ha. unfold store_after.
  destruct (table_get (cc_post_id comment) (posts db)) as [r|] eqn:E.
  - rewrite (orm_create_comment_run comment db r E). simpl.
    by apply (insert_comment_assigned (Orm.CommentRow_of_create comment) db r).
  - by rewrite (orm_create_comment_missing comment db E).
Qed.

Lemma backend_update_post_assigned (u : PostPartialUpdate) (id : Z) (db : DB) :
  post_ids_assigned db ->
  post_ids_assigned (store_after (Backend.update_post u id) db).
Proof.
  intros [Hp Hc]. unfold store_after.
  destruct (table_get id (posts db)) as [r|] eqn:E.
  - rewrite (backend_update_post_run u id db r E).
    case_decide; [done|].
    destruct (set_columns r (dict_exclude_unset u)) as [r'|]; [|done].
    split; unfold table_get in *; simpl; [|done].
    intros k x Hk. destruct (decide (id = k)) as [<-|Hne]; [by eapply Hp|].
    rewrite lookup_insert_ne in Hk by done. by eapply Hp.
  - by rewrite (backend_update_post_missing u id db E).
Qed.

Lemma orm_update_post_assigned (u : PostPartialUpdate) (id : Z) (db : DB) :
  post_ids_assigned db ->
  post_ids_assigned (store_after (Orm.update_post u id) db).
Proof.
  intros [Hp Hc]. unfold store_after.
  destruct (table_get id (posts db)) as [r|] eqn:E.
  - rewrite (orm_update_post_run u id db r E).
    destruct (set_columns r (dict_exclude_unset u)) as [r'|]; [|done].
    case_decide; [|done].
    split; unfold table_get in *; simpl; [|done].
    intros k x Hk. destruct (decide (id = k)) as [<-|Hne]; [by eapply Hp|].
    rewrite lookup_alter_ne in Hk by done. by eapply Hp.
  - by rewrite (orm_update_post_missing u id db E).
Qed.

Lemma backend_delete_post_assigned (id : Z) (db : DB) :
  post_ids_assigned db -> post_ids_assigned (store_after (Backend.delete_post id) db).
Proof.
  intros [Hp Hc]. unfold store_after.
  destruct (table_get id (posts db)) as [r|] eqn:E.
  - rewrite (backend_delete_post_run id db r E). simpl.
    split; unfold table_get in *; simpl; [|done].
    intros k x Hk. apply lookup_delete_Some in Hk as [_ Hk]. by eapply Hp.
  - by rewrite (backend_delete_post_missing id db E).
Qed.

Lemma orm_delete_post_assigned (id : Z) (db : DB) :
  post_ids_assigned db -> post_ids_assigned (store_after (Orm.delete_post id) db).
Proof.
  intros [Hp Hc]. unfold store_after.
  destruct (table_get id (posts db)) as [r|] eqn:E.
  - rewrite (orm_delete_post_run id db r E). simpl.
    split; unfold table_get in *; simpl.
    + intros k x Hk. apply lookup_delete_Some in Hk as [_ Hk]. by eapply Hp.
    + intros k c Hk. apply map_lookup_filter_Some in Hk as [Hk _]. by eapply Hc.
  - by rewrite (orm_delete_post_missing id db E).
Qed.

(** Hence every store that a sequence of requests builds from the empty one
    has it. *)
Lemma backend_history_assigned (history : list request) (db : DB) :
  post_ids_assigned db -> post_ids_assigned (foldl Backend_step db history).
Proof.
  revert db. induction history as [|q history IH]; intros db H; simpl; [done|].
  apply IH. destruct q; simpl;
    auto using backend_create_post_assigned, backend_update_post_assigned,
      backend_delete_post_assigned, backend_create_comment_assigned.
Qed.

Lemma orm_history_assigned (history : list request) (db : DB) :
  post_ids_assigned db -> post_ids_assigned (foldl Orm_step db history).
Proof.
  revert db. induction history as [|q history IH]; intros db H; simpl; [done|].
  apply IH. destruct q; simpl;
    auto using orm_create_post_assigned, orm_update_post_assigned,
      orm_delete_post_assigned, orm_create_comment_assigned.
Qed.

(** No stored comment references the key the next post will get. *)
Lemma no_comment_for_next_post (db : DB) :
  post_ids_assigned db -> comments_of (next_id (posts db)) db = [].
Proof.
  intros [_ Hc]. apply comments_of_none. intros k c Hk.
  specialize (Hc k c Hk). pose proof (next_id_above_sequence (posts db)). lia.
Qed.

Lemma sample_db_assigned : post_ids_assigned sample_db.
Proof.
  apply (backend_history_assigned
           [CreatePost sample_post; CreateComment sample_comment] empty_db).
  apply empty_db_assigned.
Qed.

(** C5, as the claim has it, fails at the HTTP surface: the post that [GET
    /posts/1] of the ORM variant returns after the creation has no comments
    collection at all (the route's response model is [PostDB]), and its date
    carries the offset 0 where the submitted date had none; the
    query-builder variant has no route for [GET /posts/1]. *)
Lemma create_post_then_get_example :
  result_of (Orm.create_post sample_post) empty_db
  = Return {| pd_title := "A"; pd_content := "B";
              pd_publication_date := aware_utc 7; pd_id := 1 |} /\
  (OrmApp.get_post 1 (store_after (Orm.create_post sample_post) empty_db)).2
  = {| status_code := 200;
       content := Some (VDict [("title", VStr "A"); ("content", VStr "B");
                               ("publication_date", VDatetime (aware_utc 7));
                               ("id", VInt 1)]) |} /\
  pc_publication_date sample_post = naive 7 /\
  find_route Backend_routes GET "/posts/1" = None.
Proof. by vm_compute. Qed.

(** C5, amended: in a store whose post identifiers were all handed out by
    the posts table, a post created from a body (title, content, optional
    publication date) at clock reading [now] gets a key that was free, and
    the existence check on that key then returns it with no comments, with
    the submitted title and content, and with the submitted date as the
    variant keeps it (its wall-clock reading without offset in the
    query-builder variant, its UTC reading with offset 0 in the ORM variant),
    or [now] when the body gave none.  The ORM variant creates the post when
    the title has at most 255 characters, and its [GET /posts/{id}] then
    answers 200 with these four fields and no comments. *)
Theorem create_post_then_fetch (now : Z) (body : PostCreateBody) (db : DB) :
  post_ids_assigned db ->
  let post := PostCreate_parse now body in
  let date := default (naive now) (body_publication_date body) in
  (exists created,
     result_of (Backend.create_post post) db = Return created /\
     table_get (pp_id created) (posts db) = None /\
     result_of (Backend.get_post_or_404 (pp_id created))
       (store_after (Backend.create_post post) db)
     = Return {| pp_title := body_title body; pp_content := body_content body;
                 pp_publication_date := naive (wall date); pp_id := pp_id created;
                 pp_comments := [] |}) /\
  ((String.length (body_title body) <= 255)%nat ->
   exists created,
     result_of (Orm.create_post post) db = Return created /\
     table_get (pd_id created) (posts db) = None /\
     result_of (Orm.get_post_or_404 (pd_id created))
       (store_after (Orm.create_post post) db)
     = Return {| Orm.pt_id := pd_id created;
                 Orm.pt_publication_date := aware_utc (utc_wall date);
                 Orm.pt_title := body_title body;
                 Orm.pt_content := body_content body;
                 Orm.pt_comments := Some [] |} /\
     (OrmApp.get_post (pd_id created) (store_after (Orm.create_post post) db)).2
     = {| status_code := 200;
          content :=
            Some (VDict [("title", VStr (body_title body));
                         ("content", VStr (body_content body));
                         ("publication_date", VDatetime (aware_utc (utc_wall date)));
                         ("id", VInt (pd_id created))]) |}) /\
  (body_publication_date body = None -> date = naive now) /\
  (forall d, body_publication_date body = Some d -> date = d).
Proof.
  intros Ha post date.
  pose proof (no_comment_for_next_post db Ha) as Hnone.
  unfold result_of, store_after.
  rewrite backend_create_post_run, orm_create_post_run. simpl.
  split_and!.
  - eexists. split; [reflexivity|]. simpl. split; [apply next_id_fresh|].
    erewrite backend_get_post_or_404_found;
      [|unfold table_get; simpl; apply lookup_insert_eq].
    simpl. unfold comments_of in *. simpl. by rewrite Hnone.
  - intros Hfit. rewrite decide_True by done. simpl.
    eexists. split; [reflexivity|]. simpl. split; [apply next_id_fresh|].
    unfold OrmApp.get_post, endpoint_tortoise, Orm.get_post, bind.
    erewrite orm_get_post_or_404_found;
      [|unfold table_get; simpl; apply lookup_insert_eq].
    simpl. unfold comments_of in *. simpl. by rewrite Hnone.
  - unfold date. by intros ->.
  - unfold date. by intros d ->.
Qed.

Lemma create_post_then_fetch_witness :
  exists created,
    result_of
      (Orm.create_post
         (PostCreate_parse 11
            {| body_title := "T"; body_content := "U";
               body_publication_date := None |})) sample_db
    = Return created /\
    result_of (Orm.get_post_or_404 (pd_id created))
      (store_after
         (Orm.create_post
            (PostCreate_parse 11
               {| body_title := "T"; body_content := "U";
                  body_publication_date := None |})) sample_db)
    = Return {| Orm.pt_id := pd_id created; Orm.pt_publication_date := aware_utc 11;
                Orm.pt_title := "T"; Orm.pt_content := "U";
                Orm.pt_comments := Some [] |}.
Proof.
  destruct (create_post_then_fetch 11
              {| body_title := "T"; body_content := "U";
                 body_publication_date := None |} sample_db sample_db_assigned)
    as (_ & Ho & _).
  destruct Ho as (created & Hc & _ & Hg & _); [simpl; lia|].
  exists created. by split.
Defined.

(** ** The single-post read route *)

Lemma find_route_sound (routes : list Route) (m : Method) (path : string)
    (r : Route) (params : list (string * string)) :
  find_route routes m path = Some (r, params) ->
  r ∈ routes /\ route_method r = m /\ match_path (route_path r) path = Some params.
Proof.
  induction routes as [|r0 routes IH]; simpl; [done|].
  destruct (match_path (route_path r0) path) as [ps|] eqn:E.
  - destruct (decide (route_method r0 = m)) as [Hm|Hm].
    + intros [= <- <-]. split_and!; [left|done|done].
    + intros H. destruct (IH H) as (? & ? & ?). split_and!; [by right|done|done].
  - intros H. destruct (IH H) as (? & ? & ?). split_and!; [by right|done|done].
Qed.

(** C7: the query-builder variant registers its single-post read under the
    template [posts/{id}], which no request path (they all start with ['/'])
    matches: [GET /posts/1] finds no route there, and the only [GET] route a
    request can reach is [list_posts].  The ORM variant registers
    [/posts/{id}], resolves [GET /posts/1] to [get_post] with [id = 1], and
    answers 200 for an existing post, as the handler of the query-builder
    variant would if it were reached. *)
Theorem backend_get_post_route_unreachable :
  find_route Backend_routes GET "/posts/1" = None /\
  find_route Orm_routes GET "/posts/1"
  = Some ({| route_method := GET; route_path := "/posts/{id}";
             route_name := "get_post" |}, [("id", "1")]) /\
  (forall path, match_path "posts/{id}" (String "/" path) = None) /\
  (forall path,
     match find_route Backend_routes GET (String "/" path) with
     | Some (r, _) => route_name r = "list_posts"
     | None => True
     end) /\
  status_code (OrmApp.get_post 1 sample_db).2 = 200 /\
  status_code (BackendApp.get_posts 1 sample_db).2 = 200.
Proof.
  split_and!; try reflexivity.
  intros path.
  destruct (find_route Backend_routes GET (String "/" path)) as [[r ps]|] eqn:E;
    [|done].
  apply find_route_sound in E as (Hin & Hm & Hp).
  unfold Backend_routes in Hin.
  repeat (apply elem_of_cons in Hin as [->|Hin]); try done.
  by apply elem_of_nil in Hin.
Qed.

(** ** The response of an update *)

(** C8: for an existing post and a body that both variants act on, the
    query-builder handler returns what re-running the existence check on the
    updated store reads, the post with its re-read comments, while the ORM
    handler returns the [PostDB] of the entity it loaded before the update
    and mutated in memory.  The two responses differ: both are answered 200
    and, the response model being [PostDB] on both routes, neither carries
    comments; they carry the identifier and the title and content of the
    updated row, and agree on every field but the publication date, which the
    query-builder variant returns without offset and the ORM variant with the
    offset 0. *)
Theorem update_post_responses_diverge
    (u : PostPartialUpdate) (id : Z) (db : DB) (r : PostRow) :
  table_get id (posts db) = Some r ->
  accepted u ->
  (String.length (row_title r) <= 255)%nat ->
  exists (public : PostPublic) (entity mutated : Orm.PostTortoise)
         (body_b body_o : list (string * value)),
    let db_b := store_after (Backend.update_post u id) db in
    result_of (Backend.update_post u id) db = Return public /\
    result_of (Backend.get_post_or_404 id) db_b = Return public /\
    (forall c, c ∈ pp_comments public <->
       exists k row, table_get k (comments db_b) = Some row /\
                     crow_post_id row = id /\ c = backend_comment k row) /\
    result_of (Orm.get_post_or_404 id) db = Return entity /\
    result_of (Orm.update_from_dict entity (dict_exclude_unset u)) db
    = Return mutated /\
    result_of (Orm.update_post u id) db = Return (Orm.PostDB_from_orm mutated) /\
    Orm.pt_comments mutated = Orm.pt_comments entity /\
    (BackendApp.update_post u id db).2
    = {| status_code := 200; content := Some (VDict body_b) |} /\
    (OrmApp.update_post u id db).2
    = {| status_code := 200; content := Some (VDict body_o) |} /\
    dict_get "publication_date" body_b
    = Some (VDatetime (naive (row_publication_date r))) /\
    dict_get "publication_date" body_o
    = Some (VDatetime (aware_utc (row_publication_date r))) /\
    dict_get "comments" body_b = None /\
    dict_get "comments" body_o = None /\
    (forall key, key <> "publication_date" ->
       dict_get key body_b = dict_get key body_o) /\
    dict_get "id" body_b = Some (VInt id) /\
    (exists r', table_get id (posts db_b) = Some r' /\
                dict_get "title" body_b = Some (VStr (row_title r')) /\
                dict_get "content" body_b = Some (VStr (row_content r'))) /\
    (BackendApp.update_post u id db).2 <> (OrmApp.update_post u id db).2.
Proof.
  intros H (Hu & Hn & Hfit) Hr.
  destruct (set_columns_no_null u r Hn) as [r' Hr'].
  pose proof (set_columns_title_fits u r r' Hr' Hfit Hr) as Hfit'.
  destruct (set_columns_frame u r r' Hr') as (Hd & _).
  set (related := Some (Orm.CommentTortoise_of_row <$> comments_of id db)).
  exists (PostPublic_of_row id r' (CommentDB_of_row <$> comments_of id db)),
    {| Orm.pt_id := id; Orm.pt_publication_date := aware_utc (row_publication_date r);
       Orm.pt_title := row_title r; Orm.pt_content := row_content r;
       Orm.pt_comments := related |},
    {| Orm.pt_id := id; Orm.pt_publication_date := aware_utc (row_publication_date r');
       Orm.pt_title := row_title r'; Orm.pt_content := row_content r';
       Orm.pt_comments := related |},
    [("title", VStr (row_title r')); ("content", VStr (row_content r'));
     ("publication_date", VDatetime (naive (row_publication_date r')));
     ("id", VInt id)],
    [("title", VStr (row_title r')); ("content", VStr (row_content r'));
     ("publication_date", VDatetime (aware_utc (row_publication_date r')));
     ("id", VInt id)].
  unfold BackendApp.update_post, OrmApp.update_post, endpoint, endpoint_tortoise,
    result_of, store_after.
  rewrite (backend_update_post_run u id db r H), (orm_update_post_run u id db r H).
  rewrite (orm_get_post_or_404_found id db r H), Hr'.
  rewrite decide_False by done. rewrite decide_True by done. simpl.
  split_and!; try done.
  - rewrite (backend_get_post_or_404_found id _ r'); [done|].
    unfold table_get. simpl. apply lookup_insert_eq.
  - intros c. apply (backend_comments_stored id db c).
  - clear Hd Hfit'. destruct Hn as [Ht Hc]. destruct r as [d t0 c0].
    destruct u as [[[t|]|] [[c|]|]]; simpl in *; try done.
    all: unfold Orm.set_attribute; simpl.
    all: rewrite ?decide_True by (by apply Hfit).
    all: by simplify_eq.
  - by rewrite Hd.
  - by rewrite Hd.
  - intros key Hkey.
    destruct (String.eqb key "title"); [done|].
    destruct (String.eqb key "content"); [done|].
    destruct (String.eqb_spec key "publication_date"); done.
  - exists r'. unfold table_get. simpl. by rewrite lookup_insert_eq.
Qed.

Lemma update_post_responses_diverge_witness :
  exists body_b body_o : list (string * value),
    (BackendApp.update_post {| pu_title := None; pu_content := Some (Some "Y") |} 1
       sample_db).2
    = {| status_code := 200; content := Some (VDict body_b) |} /\
    (OrmApp.update_post {| pu_title := None; pu_content := Some (Some "Y") |} 1
       sample_db).2
    = {| status_code := 200; content := Some (VDict body_o) |} /\
    dict_get "publication_date" body_b = Some (VDatetime (naive 7)) /\
    dict_get "publication_date" body_o = Some (VDatetime (aware_utc 7)).
Proof.
  destruct (update_post_responses_diverge
              {| pu_title := None; pu_content := Some (Some "Y") |} 1 sample_db
              (PostRow_of_create sample_post))
    as (public & entity & mutated & body_b & body_o & _ & _ & _ & _ & _ & _ & _
        & Hb & Ho & Hdb & Hdo & _);
    [reflexivity|split_and!; [done|by split|by intros t]|simpl; lia|].
  exists body_b, body_o. by split_and!.
Defined.

(** * Further properties *)

(** ** Listing posts *)

(** The window of a listing: [limit] rows of the scan from offset [skip]. *)
Lemma window_sublist {A} (n m : nat) (l : list A) : take n (drop m l) `sublist_of` l.
Proof. etrans; [apply sublist_take|apply sublist_drop]. Qed.

Lemma limit_offset_sublist {A} (skip limit : Z) (l : list A) :
  Backend.limit_offset skip limit l `sublist_of` l.
Proof.
  unfold Backend.limit_offset. case_decide; [apply sublist_drop|apply window_sublist].
Qed.

Lemma backend_list_posts_run (skip limit : Z) (db : DB) :
  0 <= skip < 2 ^ 63 -> 0 <= limit ->
  Backend.list_posts (Backend.pagination skip limit) db
  = (db, Return (PostDB_of_row <$> take (Z.to_nat (Z.min 100 limit))
                                    (drop (Z.to_nat skip) (table_scan (posts db))))).
Proof.
  intros Hs Hl. unfold Backend.list_posts, Backend.pagination, Backend.select_posts,
    bind, ret, Backend.limit_offset. simpl.
  rewrite decide_True by (unfold int64; lia).
  by rewrite decide_False by lia.
Qed.

Lemma orm_list_posts_run (skip limit : Z) (db : DB) :
  0 <= skip < 2 ^ 63 -> 0 <= limit ->
  Orm.list_posts (Orm.pagination skip limit) db
  = (db, Return ((fun kr => orm_post kr.1 kr.2) <$>
                   take (Z.to_nat (Z.min 100 limit))
                     (drop (Z.to_nat skip) (table_scan (posts db))))).
Proof.
  intros Hs Hl. unfold Orm.list_posts, Orm.pagination, Orm.PostTortoise_all,
    bind, ret. simpl.
  rewrite decide_False by lia. rewrite decide_True by lia. simpl.
  do 2 f_equal. rewrite <- list_fmap_compose. apply list_fmap_ext.
  by intros _ [k r] _.
Qed.

(** Whatever the offset and the width, a listing that returns shows rows of
    the scan, in its order. *)
Lemma backend_list_posts_window (skip limit : Z) (db : DB) (page : list PostDB) :
  result_of (Backend.list_posts (Backend.pagination skip limit)) db = Return page ->
  exists window, window `sublist_of` table_scan (posts db) /\
                 page = PostDB_of_row <$> window.
Proof.
  unfold result_of, Backend.list_posts, Backend.pagination, Backend.select_posts,
    bind, ret. simpl.
  case_decide; [|done]. simpl. intros [= <-].
  eexists. split; [apply limit_offset_sublist|done].
Qed.

Lemma orm_list_posts_window (skip limit : Z) (db : DB) (page : list PostDB) :
  result_of (Orm.list_posts (Orm.pagination skip limit)) db = Return page ->
  exists window, window `sublist_of` table_scan (posts db) /\
                 page = (fun kr => orm_post kr.1 kr.2) <$> window.
Proof.
  unfold result_of, Orm.list_posts, Orm.pagination, Orm.PostTortoise_all,
    bind, ret. simpl.
  case_decide; [done|]. case_decide; [|done]. simpl. intros [= <-].
  eexists. split; [apply window_sublist|].
  rewrite <- list_fmap_compose. apply list_fmap_ext. by intros _ [k r] _.
Qed.

Lemma pd_id_of_rows (l : list (Z * PostRow)) : pd_id <$> (PostDB_of_row <$> l) = l.*1.
Proof. rewrite <- list_fmap_compose. apply list_fmap_ext. by intros _ [k r] _. Qed.

Lemma pd_id_of_orm_rows (l : list (Z * PostRow)) :
  pd_id <$> ((fun kr => orm_post kr.1 kr.2) <$> l) = l.*1.
Proof. rewrite <- list_fmap_compose. apply list_fmap_ext. by intros _ [k r] _. Qed.

Lemma window_ascending (n m : nat) (t : Table PostRow) :
  StronglySorted Z.lt (take n (drop m (table_scan t))).*1.
Proof.
  apply sorted_keys. eapply sorted_sublist; [apply window_sublist|].
  apply table_scan_sorted.
Qed.

(** X1: for [0 <= skip < 2^63] and [limit >= 0], [GET /posts] of either
    variant answers 200 with a page and leaves the store as it was.  The two
    pages show the same identifiers, in ascending order and so none twice, at
    most 100 of them and at most [limit]; every post on a page is a stored
    row with the stored title and content, and with the stored date as the
    variant reads it (without offset in the query-builder variant, with
    offset 0 in the ORM variant). *)
Theorem list_posts_page (skip limit : Z) (db : DB) :
  0 <= skip < 2 ^ 63 -> 0 <= limit ->
  exists page_b page_o,
    BackendApp.list_posts (Backend.pagination skip limit) db
    = (db, {| status_code := 200; content := posts_body page_b |}) /\
    OrmApp.list_posts (Orm.pagination skip limit) db
    = (db, {| status_code := 200; content := posts_body page_o |}) /\
    pd_id <$> page_b = pd_id <$> page_o /\
    StronglySorted Z.lt (pd_id <$> page_b) /\
    (length page_b <= 100)%nat /\
    Z.of_nat (length page_b) <= limit /\
    (forall p, p ∈ page_b ->
       exists r, table_get (pd_id p) (posts db) = Some r /\
                 pd_title p = row_title r /\ pd_content p = row_content r /\
                 pd_publication_date p = naive (row_publication_date r)) /\
    (forall p, p ∈ page_o ->
       exists r, table_get (pd_id p) (posts db) = Some r /\
                 pd_title p = row_title r /\ pd_content p = row_content r /\
                 pd_publication_date p = aware_utc (row_publication_date r)).
Proof.
  intros Hs Hl.
  set (window := take (Z.to_nat (Z.min 100 limit))
                   (drop (Z.to_nat skip) (table_scan (posts db)))).
  assert (Hsub : window `sublist_of` table_scan (posts db)) by apply window_sublist.
  exists (PostDB_of_row <$> window), ((fun kr => orm_post kr.1 kr.2) <$> window).
  unfold BackendApp.list_posts, OrmApp.list_posts, endpoint, endpoint_tortoise.
  rewrite (backend_list_posts_run skip limit db Hs Hl),
    (orm_list_posts_run skip limit db Hs Hl). fold window. simpl.
  assert (Hlen : (length window <= Z.to_nat (Z.min 100 limit))%nat).
  { unfold window. rewrite length_take. lia. }
  split_and!; try done.
  - by rewrite pd_id_of_rows, pd_id_of_orm_rows.
  - rewrite pd_id_of_rows. apply window_ascending.
  - rewrite length_fmap. lia.
  - rewrite length_fmap. lia.
  - intros p Hp. apply list_elem_of_fmap in Hp as ([k r] & -> & Hin).
    eapply elem_of_sublist in Hin; [|exact Hsub].
    apply elem_of_table_scan in Hin. by exists r.
  - intros p Hp. apply list_elem_of_fmap in Hp as ([k r] & -> & Hin).
    eapply elem_of_sublist in Hin; [|exact Hsub].
    apply elem_of_table_scan in Hin. by exists r.
Qed.

Lemma list_posts_page_witness :
  exists page_b page_o,
    BackendApp.list_posts (Backend.pagination 0 250) sample_db
    = (sample_db, {| status_code := 200; content := posts_body page_b |}) /\
    OrmApp.list_posts (Orm.pagination 0 250) sample_db
    = (sample_db, {| status_code := 200; content := posts_body page_o |}) /\
    pd_id <$> page_b = pd_id <$> page_o /\
    (length page_b <= 100)%nat.
Proof.
  destruct (list_posts_page 0 250 sample_db) as (pb & po & Hb & Ho & Hid & _ & Hlen & _);
    [lia|lia|].
  exists pb, po. by split_and!.
Defined.

(** X2: consecutive windows tile the listing: for [skip >= 0] and positive
    [a] and [b] with [a + b <= 100] and [skip + a < 2^63], the page at offset
    [skip] of width [a] followed by the page at offset [skip + a] of width
    [b] is the page at offset [skip] of width [a + b], in each variant. *)
Theorem list_posts_pages_tile (skip a b : Z) (db : DB) :
  0 <= skip -> 0 < a -> 0 < b -> a + b <= 100 -> skip + a < 2 ^ 63 ->
  (exists first second,
     result_of (Backend.list_posts (Backend.pagination skip a)) db = Return first /\
     result_of (Backend.list_posts (Backend.pagination (skip + a) b)) db
     = Return second /\
     result_of (Backend.list_posts (Backend.pagination skip (a + b))) db
     = Return (first ++ second)%list) /\
  (exists first second,
     result_of (Orm.list_posts (Orm.pagination skip a)) db = Return first /\
     result_of (Orm.list_posts (Orm.pagination (skip + a) b)) db = Return second /\
     result_of (Orm.list_posts (Orm.pagination skip (a + b))) db
     = Return (first ++ second)%list).
Proof.
  intros Hs Ha Hb Hab Hrange. unfold result_of.
  rewrite !backend_list_posts_run, !orm_list_posts_run by lia. simpl.
  split; eexists _, _; split_and!; try reflexivity.
  all: f_equal; rewrite <- fmap_app; f_equal.
  all: rewrite !Z.min_r by lia.
  all: rewrite !Z2Nat.inj_add by lia.
  all: rewrite <- drop_drop; by rewrite take_take_drop.
Qed.

Lemma list_posts_pages_tile_witness :
  exists first second,
    result_of (Backend.list_posts (Backend.pagination 0 1)) sample_db = Return first /\
    result_of (Backend.list_posts (Backend.pagination 1 5)) sample_db = Return second /\
    result_of (Backend.list_posts (Backend.pagination 0 6)) sample_db
    = Return (first ++ second)%list.
Proof.
  destruct (list_posts_pages_tile 0 1 5 sample_db) as [(f & s & H1 & H2 & H3) _];
    [lia|lia|lia|lia|lia|].
  exists f, s. by split_and!.
Defined.

(** X3: when the table holds no more posts than the capped window
    ([min(100, limit)], [limit > 0]), listing from offset 0 returns every
    stored post, each once, as the variant reads it. *)
Theorem list_posts_whole_table (limit : Z) (db : DB) :
  0 < limit ->
  Z.of_nat (size (rows (posts db))) <= Z.min 100 limit ->
  exists page_b page_o,
    result_of (Backend.list_posts (Backend.pagination 0 limit)) db = Return page_b /\
    result_of (Orm.list_posts (Orm.pagination 0 limit)) db = Return page_o /\
    length page_b = size (rows (posts db)) /\
    length page_o = size (rows (posts db)) /\
    (forall k r, table_get k (posts db) = Some r ->
       PostDB_of_row (k, r) ∈ page_b /\ orm_post k r ∈ page_o).
Proof.
  intros Hl Hsize. unfold result_of.
  rewrite backend_list_posts_run, orm_list_posts_run by lia. simpl.
  change (Z.to_nat 0) with 0%nat. rewrite drop_0.
  rewrite take_ge by (rewrite table_scan_length; lia).
  eexists _, _. split_and!; try reflexivity.
  - by rewrite length_fmap, table_scan_length.
  - by rewrite length_fmap, table_scan_length.
  - intros k r H. split.
    + apply list_elem_of_fmap_2. by apply elem_of_table_scan.
    + apply (list_elem_of_fmap_2' _ _ (k, r)); [|done]. by apply elem_of_table_scan.
Qed.

Lemma list_posts_whole_table_witness :
  exists page,
    result_of (Orm.list_posts (Orm.pagination 0 10)) sample_db = Return page /\
    orm_post 1 (PostRow_of_create sample_post) ∈ page.
Proof.
  destruct (list_posts_whole_table 10 sample_db) as (pb & po & _ & Ho & _ & _ & Hin);
    [lia|vm_compute; discriminate|].
  exists po. split; [exact Ho|]. by apply Hin.
Defined.

(** X4: a window that starts at or past the number of stored posts (and
    below 2^63) is the empty list, answered 200, in both variants. *)
Theorem list_posts_past_end (skip limit : Z) (db : DB) :
  Z.of_nat (size (rows (posts db))) <= skip ->
  skip < 2 ^ 63 ->
  0 <= limit ->
  BackendApp.list_posts (Backend.pagination skip limit) db
  = (db, {| status_code := 200; content := Some (VList []) |}) /\
  OrmApp.list_posts (Orm.pagination skip limit) db
  = (db, {| status_code := 200; content := Some (VList []) |}).
Proof.
  intros Hs Hrange Hl.
  unfold BackendApp.list_posts, OrmApp.list_posts, endpoint, endpoint_tortoise.
  rewrite backend_list_posts_run, orm_list_posts_run by lia. simpl.
  rewrite drop_ge by (rewrite table_scan_length; lia).
  by rewrite take_nil.
Qed.

Lemma list_posts_past_end_witness :
  BackendApp.list_posts (Backend.pagination 1 10) sample_db
  = (sample_db, {| status_code := 200; content := Some (VList []) |}) /\
  OrmApp.list_posts (Orm.pagination 0 10) empty_db
  = (empty_db, {| status_code := 200; content := Some (VList []) |}).
Proof.
  destruct (list_posts_past_end 1 10 sample_db) as [Hb _];
    [vm_compute; discriminate|lia|lia|].
  destruct (list_posts_past_end 0 10 empty_db) as [_ Ho];
    [vm_compute; discriminate|lia|lia|].
  by split.
Defined.



(** ** Creating and updating posts *)

(** X6: [POST /posts] with a title within the declared 255 characters is
    answered 201 by both variants, with the submitted title and content, a
    new identifier (the same in both) and the date as the variant keeps it;
    the row is stored under that identifier, which no post had, and every
    stored post and the comments are left as they were. *)
Theorem create_post_inserts_fresh (post : PostCreate) (db : DB) :
  (String.length (pc_title post) <= 255)%nat ->
  exists id,
    let db_b := (BackendApp.create_post post db).1 in
    let db_o := (OrmApp.create_post post db).1 in
    (BackendApp.create_post post db).2
    = {| status_code := 201;
         content :=
           Some (VDict [("title", VStr (pc_title post));
                        ("content", VStr (pc_content post));
                        ("publication_date",
                         VDatetime (naive (wall (pc_publication_date post))));
                        ("id", VInt id)]) |} /\
    (OrmApp.create_post post db).2
    = {| status_code := 201;
         content :=
           Some (VDict [("title", VStr (pc_title post));
                        ("content", VStr (pc_content post));
                        ("publication_date",
                         VDatetime (aware_utc (utc_wall (pc_publication_date post))));
                        ("id", VInt id)]) |} /\
    table_get id (posts db) = None /\
    table_get id (posts db_b)
    = Some {| row_publication_date := wall (pc_publication_date post);
              row_title := pc_title post; row_content := pc_content post |} /\
    table_get id (posts db_o)
    = Some {| row_publication_date := utc_wall (pc_publication_date post);
              row_title := pc_title post; row_content := pc_content post |} /\
    (forall k r, table_get k (posts db) = Some r ->
       table_get k (posts db_b) = Some r /\ table_get k (posts db_o) = Some r) /\
    comments db_b = comments db /\
    comments db_o = comments db.
Proof.
  intros Hfit. exists (next_id (posts db)).
  unfold BackendApp.create_post, OrmApp.create_post, endpoint, endpoint_tortoise.
  rewrite backend_create_post_run, orm_create_post_run.
  rewrite decide_True by done. simpl.
  split_and!; try done.
  - apply next_id_fresh.
  - unfold table_get. simpl. apply lookup_insert_eq.
  - unfold table_get. simpl. apply lookup_insert_eq.
  - intros k r H. split.
    + apply (table_insert_keeps (PostRow_of_create post) _ _ _ H).
    + apply (table_insert_keeps (Orm.PostRow_of_create post) _ _ _ H).
Qed.

Lemma create_post_inserts_fresh_witness :
  exists id,
    table_get id (posts sample_db) = None /\
    table_get id (posts (BackendApp.create_post sample_post sample_db).1)
    = Some {| row_publication_date := 7; row_title := "A"; row_content := "B" |} /\
    table_get id (posts (OrmApp.create_post sample_post sample_db).1)
    = Some {| row_publication_date := 7; row_title := "A"; row_content := "B" |}.
Proof.
  destruct (create_post_inserts_fresh sample_post sample_db)
    as (id & _ & _ & Hnone & Hb & Ho & _); [simpl; lia|].
  exists id. by split_and!.
Defined.

(** X21: the ORM variant refuses a title of more than 255 characters, on
    create and on update: the request is answered 500 and the store is left
    as it was.  The query-builder variant stores such a title. *)
Theorem orm_title_too_long (post : PostCreate) (t : string) (id : Z) (db : DB)
    (r : PostRow) :
  (255 < String.length (pc_title post))%nat ->
  (255 < String.length t)%nat ->
  table_get id (posts db) = Some r ->
  let u := {| pu_title := Some (Some t); pu_content := None |} in
  OrmApp.create_post post db
  = (db, {| status_code := 500; content := Some (VStr "Internal Server Error") |}) /\
  OrmApp.update_post u id db
  = (db, {| status_code := 500; content := Some (VStr "Internal Server Error") |}) /\
  status_code (BackendApp.create_post post db).2 = 201 /\
  (exists k r', table_get k (posts (BackendApp.create_post post db).1) = Some r' /\
                row_title r' = pc_title post) /\
  status_code (BackendApp.update_post u id db).2 = 200 /\
  (exists r', table_get id (posts (BackendApp.update_post u id db).1) = Some r' /\
              row_title r' = t).
Proof.
  intros Hpost Ht H u.
  unfold OrmApp.create_post, OrmApp.update_post, BackendApp.create_post,
    BackendApp.update_post, endpoint, endpoint_tortoise.
  rewrite orm_create_post_run, backend_create_post_run.
  rewrite (orm_update_post_run u id db r H), (backend_update_post_run u id db r H).
  rewrite decide_False by (unfold Orm.title_max_length; lia). simpl.
  rewrite decide_False by (unfold Orm.title_max_length; lia). simpl.
  split_and!; try done.
  - eexists _, _. unfold table_get. simpl. by rewrite lookup_insert_eq.
  - eexists. unfold table_get. simpl. by rewrite lookup_insert_eq.
Qed.

Lemma orm_title_too_long_witness :
  OrmApp.create_post long_post sample_db
  = (sample_db, {| status_code := 500;
                   content := Some (VStr "Internal Server Error") |}) /\
  status_code (BackendApp.create_post long_post sample_db).2 = 201.
Proof.
  destruct (orm_title_too_long long_post long_title 1 sample_db
              (PostRow_of_create sample_post)) as (Ho & _ & Hb & _);
    [vm_compute; lia|vm_compute; lia|reflexivity|].
  by split.
Defined.

(** X7: [PATCH /posts/{id}] for an identifier that names no post changes
    nothing, whatever the body: the ORM variant answers 404, and so does the
    query-builder variant when the identifier is a 64-bit integer; otherwise
    it answers 500. *)
Theorem update_post_missing (u : PostPartialUpdate) (id : Z) (db : DB) :
  table_get id (posts db) = None ->
  OrmApp.update_post u id db
  = (db, {| status_code := 404;
            content := Some (VDict [("detail", VStr "Not Found")]) |}) /\
  (int64 id ->
   BackendApp.update_post u id db
   = (db, {| status_code := 404;
             content := Some (VDict [("detail", VStr "Not Found")]) |})) /\
  (~ int64 id ->
   BackendApp.update_post u id db
   = (db, {| status_code := 500; content := Some (VStr "Internal Server Error") |})).
Proof.
  intros H. unfold BackendApp.update_post, OrmApp.update_post, endpoint,
    endpoint_tortoise.
  rewrite (backend_update_post_missing u id db H), (orm_update_post_missing u id db H).
  split_and!; [done| |]; intros Hi.
  - by rewrite decide_True.
  - by rewrite decide_False.
Qed.

Lemma update_post_missing_witness :
  BackendApp.update_post {| pu_title := Some (Some "X"); pu_content := None |} 2
    sample_db
  = (sample_db, {| status_code := 404;
                   content := Some (VDict [("detail", VStr "Not Found")]) |}).
Proof.
  destruct (update_post_missing {| pu_title := Some (Some "X"); pu_content := None |}
              2 sample_db) as (_ & Hb & _); [reflexivity|].
  apply Hb. unfold int64. lia.
Defined.

(** X8: in the ORM variant a [PATCH] whose body sets [title] or [content]
    to JSON null on an existing post fails before anything is saved: it is
    answered 500 and the store is left as it was, also when the other field
    was set to a string.  The exception is [ValueError], unless the body
    sets, before the null, a title of more than 255 characters. *)
Theorem orm_update_post_null_rejected
    (u : PostPartialUpdate) (id : Z) (db : DB) (r : PostRow) :
  table_get id (posts db) = Some r ->
  sets_null u ->
  (OrmApp.update_post u id db).1 = db /\
  status_code (OrmApp.update_post u id db).2 = 500 /\
  (title_set_fits u -> Orm.update_post u id db = (db, Raise ValueError)).
Proof.
  intros H Hnull.
  assert (Hrun : Orm.update_post u id db
                 = (db, Raise (if decide (title_set_fits u) then ValueError
                               else ValidationError))).
  { rewrite (orm_update_post_run u id db r H).
    destruct Hnull as [Hn|Hn]; destruct u as [[[t|]|] [[c|]|]];
      simpl in *; by simplify_eq. }
  unfold OrmApp.update_post, endpoint_tortoise. rewrite Hrun.
  split_and!.
  - done.
  - by case_decide.
  - intros Hfit. by rewrite decide_True.
Qed.

Lemma orm_update_post_null_rejected_witness :
  Orm.update_post {| pu_title := Some (Some "X"); pu_content := Some None |} 1
    sample_db
  = (sample_db, Raise ValueError).
Proof.
  destruct (orm_update_post_null_rejected
              {| pu_title := Some (Some "X"); pu_content := Some None |} 1
              sample_db (PostRow_of_create sample_post)) as (_ & _ & H);
    [reflexivity|by right|].
  apply H. intros t [= <-]. simpl. lia.
Defined.

(** ** Comments of a post *)

Lemma CommentDB_from_orm_of_row (l : list (Z * CommentRow)) :
  Orm.CommentDB_from_orm <$> (Orm.CommentTortoise_of_row <$> l)
  = (fun kr => Orm.CommentDB_from_orm (orm_comment kr.1 kr.2)) <$> l.
Proof. rewrite <- list_fmap_compose. apply list_fmap_ext. by intros _ [k c] _. Qed.

(** X9: after a comment has been created on an existing post, the existence
    check on that post returns the comments it returned before together with
    the comment the creation returned, once, and what it returns for any
    other identifier is as before; so in each variant, which reads the dates
    its own way. *)
Theorem create_comment_then_fetch (comment : CommentCreate) (db : DB) (r : PostRow) :
  table_get (cc_post_id comment) (posts db) = Some r ->
  let id := cc_post_id comment in
  let db_b := store_after (Backend.create_comment comment) db in
  let db_o := store_after (Orm.create_comment comment) db in
  (exists (stored : CommentDB) (before after : list CommentDB),
     result_of (Backend.create_comment comment) db = Return stored /\
     result_of (Backend.get_post_or_404 id) db
     = Return (PostPublic_of_row id r before) /\
     result_of (Backend.get_post_or_404 id) db_b
     = Return (PostPublic_of_row id r after) /\
     after ≡ₚ stored :: before) /\
  (exists (stored : CommentDB) (before after : list Orm.CommentTortoise),
     result_of (Orm.create_comment comment) db = Return stored /\
     result_of (Orm.get_post_or_404 id) db
     = Return {| Orm.pt_id := id;
                 Orm.pt_publication_date := aware_utc (row_publication_date r);
                 Orm.pt_title := row_title r;
                 Orm.pt_content := row_content r;
                 Orm.pt_comments := Some before |} /\
     result_of (Orm.get_post_or_404 id) db_o
     = Return {| Orm.pt_id := id;
                 Orm.pt_publication_date := aware_utc (row_publication_date r);
                 Orm.pt_title := row_title r;
                 Orm.pt_content := row_content r;
                 Orm.pt_comments := Some after |} /\
     Orm.CommentDB_from_orm <$> after
     ≡ₚ stored :: (Orm.CommentDB_from_orm <$> before)) /\
  (forall id', id' <> id ->
     result_of (Backend.get_post_or_404 id') db_b
     = result_of (Backend.get_post_or_404 id') db /\
     result_of (Orm.get_post_or_404 id') db_o
     = result_of (Orm.get_post_or_404 id') db).
Proof.
  intros H id db_b db_o. subst id db_b db_o.
  set (id := cc_post_id comment) in *.
  set (k := next_id (comments db)).
  pose proof (backend_create_comment_run comment db r H) as Hb.
  pose proof (orm_create_comment_run comment db r H) as Ho.
  simpl in Hb, Ho. fold k in Hb, Ho.
  destruct (comments_of_insert id k (CommentRow_of_create comment)
              db k (next_id_fresh (comments db))) as [Hsame_b _].
  destruct (comments_of_insert id k (Orm.CommentRow_of_create comment)
              db k (next_id_fresh (comments db))) as [Hsame_o _].
  specialize (Hsame_b eq_refl). specialize (Hsame_o eq_refl).
  unfold result_of, store_after. rewrite Hb, Ho. simpl.
  split_and!.
  - eexists _, _, _. split_and!; [reflexivity| | |].
    + by rewrite (backend_get_post_or_404_found _ db r H).
    + erewrite backend_get_post_or_404_found; [done|exact H].
    + by rewrite Hsame_b.
  - eexists _, _, _. split_and!; [reflexivity| | |].
    + by rewrite (orm_get_post_or_404_found _ db r H).
    + erewrite orm_get_post_or_404_found; [done|exact H].
    + rewrite !CommentDB_from_orm_of_row. by rewrite Hsame_o.
  - intros id' Hne.
    destruct (comments_of_insert id' k (CommentRow_of_create comment)
                db k (next_id_fresh (comments db))) as [_ Hother_b].
    destruct (comments_of_insert id' k (Orm.CommentRow_of_create comment)
                db k (next_id_fresh (comments db))) as [_ Hother_o].
    specialize (Hother_b (not_eq_sym Hne)). specialize (Hother_o (not_eq_sym Hne)).
    unfold Backend.get_post_or_404, Backend.select_post, Orm.get_post_or_404,
      Orm.PostTortoise_get, Orm.prefetch_related_comments, try_except, bind, ret,
      raise, select_post, select_post_comments. simpl.
    destruct (table_get id' (posts db)); simpl.
    + by rewrite Hother_b, Hother_o.
    + by case_decide.
Qed.

Lemma create_comment_then_fetch_witness :
  exists (stored : CommentDB) (before after : list CommentDB),
    result_of (Backend.create_comment sample_comment) sample_db = Return stored /\
    result_of (Backend.get_post_or_404 1)
      (store_after (Backend.create_comment sample_comment) sample_db)
    = Return (PostPublic_of_row 1 (PostRow_of_create sample_post) after) /\
    after ≡ₚ stored :: before.
Proof.
  destruct (create_comment_then_fetch sample_comment sample_db
              (PostRow_of_create sample_post))
    as [(stored & before & after & Hc & _ & Hg & Hp) _];
    [reflexivity|].
  exists stored, before, after. by split_and!.
Defined.

(** ** After a delete *)

(** X10: once an existing post has been deleted, every request that names
    it is refused and changes nothing, in both variants: a comment on it is
    answered 400, a second delete and an update are answered 404 (in the
    query-builder variant for a 64-bit identifier, which every stored key
    is). *)
Theorem delete_post_then_requests
    (id : Z) (db : DB) (r : PostRow) (comment : CommentCreate)
    (u : PostPartialUpdate) :
  table_get id (posts db) = Some r ->
  cc_post_id comment = id ->
  let db_b := (BackendApp.delete_post id db).1 in
  let db_o := (OrmApp.delete_post id db).1 in
  (OrmApp.create_comment comment db_o).1 = db_o /\
  status_code (OrmApp.create_comment comment db_o).2 = 400 /\
  (OrmApp.delete_post id db_o).1 = db_o /\
  status_code (OrmApp.delete_post id db_o).2 = 404 /\
  (OrmApp.update_post u id db_o).1 = db_o /\
  status_code (OrmApp.update_post u id db_o).2 = 404 /\
  (BackendApp.create_comment comment db_b).1 = db_b /\
  (BackendApp.delete_post id db_b).1 = db_b /\
  (BackendApp.update_post u id db_b).1 = db_b /\
  (int64 id ->
   status_code (BackendApp.create_comment comment db_b).2 = 400 /\
   status_code (BackendApp.delete_post id db_b).2 = 404 /\
   status_code (BackendApp.update_post u id db_b).2 = 404).
Proof.
  intros H Hc db_b db_o.
  assert (Hb : table_get id (posts db_b) = None).
  { unfold db_b, BackendApp.delete_post, endpoint.
    rewrite (backend_delete_post_run id db r H). simpl.
    unfold table_get. simpl. apply lookup_delete_eq. }
  assert (Ho : table_get id (posts db_o) = None).
  { unfold db_o, OrmApp.delete_post, endpoint_tortoise.
    rewrite (orm_delete_post_run id db r H). simpl.
    unfold table_get. simpl. apply lookup_delete_eq. }
  clearbody db_b db_o. subst id.
  unfold BackendApp.create_comment, OrmApp.create_comment, BackendApp.delete_post,
    OrmApp.delete_post, BackendApp.update_post, OrmApp.update_post, endpoint,
    endpoint_tortoise.
  rewrite (backend_create_comment_missing comment db_b Hb),
    (orm_create_comment_missing comment db_o Ho),
    (backend_delete_post_missing _ db_b Hb), (orm_delete_post_missing _ db_o Ho),
    (backend_update_post_missing u _ db_b Hb), (orm_update_post_missing u _ db_o Ho).
  split_and!; try done.
  intros Hi. by rewrite !decide_True.
Qed.

Lemma delete_post_then_requests_witness :
  status_code
    (BackendApp.create_comment sample_comment
       (BackendApp.delete_post 1 sample_db).1).2 = 400 /\
  status_code
    (OrmApp.delete_post 1 (OrmApp.delete_post 1 sample_db).1).2 = 404.
Proof.
  destruct (delete_post_then_requests 1 sample_db (PostRow_of_create sample_post)
              sample_comment {| pu_title := None; pu_content := None |})
    as (_ & _ & _ & Ho & _ & _ & _ & _ & _ & Hb); [reflexivity|reflexivity|].
  destruct Hb as (Hb & _); [unfold int64; lia|].
  by split.
Defined.

(** ** Referential integrity and agreement of the variants *)

(** Inserting or rewriting a post keeps the posts that comments reference. *)
Lemma integrity_posts_grow (db : DB) (t : Table PostRow) (c : Table CommentRow) :
  referential_integrity db ->
  (forall k, is_Some (table_get k (posts db)) -> is_Some (table_get k t)) ->
  (forall k x, table_get k c = Some x ->
     table_get k (comments db) = Some x \/ is_Some (table_get (crow_post_id x) (posts db))) ->
  referential_integrity {| posts := t; comments := c |}.
Proof.
  intros Hi Hp Hc k x Hk. simpl in *. apply Hp.
  destruct (Hc k x Hk) as [Hold|Hnew]; [by eapply Hi|done].
Qed.

Lemma insert_post_integrity (row : PostRow) (db : DB) :
  referential_integrity db ->
  referential_integrity
    {| posts := {| rows := <[next_id (posts db) := row]> (rows (posts db));
                   sequence := next_id (posts db) |};
       comments := comments db |}.
Proof.
  intros Hi. apply (integrity_posts_grow db); [done| |by left].
  intros k [x Hx]. exists x. apply (table_insert_keeps row _ _ _ Hx).
Qed.

Lemma insert_comment_integrity (row : CommentRow) (db : DB) (r : PostRow) :
  table_get (crow_post_id row) (posts db) = Some r ->
  referential_integrity db ->
  referential_integrity
    {| posts := posts db;
       comments := {| rows := <[next_id (comments db) := row]> (rows (comments db));
                      sequence := next_id (comments db) |} |}.
Proof.
  intros E Hi. apply (integrity_posts_grow db); [done|done|].
  intros k x Hk. unfold table_get in *. simpl in *.
  destruct (decide (next_id (comments db) = k)) as [<-|Hne].
  - rewrite lookup_insert_eq in Hk. simplify_eq. right. by rewrite E.
  - rewrite lookup_insert_ne in Hk by done. by left.
Qed.

Lemma backend_step_integrity (q : request) (db : DB) :
  delete_free q ->
  referential_integrity db -> referential_integrity (Backend_step db q).
Proof.
  intros Hq Hi. destruct q as [post|u id| |comment]; simpl in *; [| | done |].
  - unfold store_after. rewrite backend_create_post_run. simpl.
    by apply insert_post_integrity.
  - unfold store_after. destruct (table_get id (posts db)) as [r|] eqn:E.
    + rewrite (backend_update_post_run u id db r E).
      case_decide; [done|].
      destruct (set_columns r (dict_exclude_unset u)) as [r'|]; [|done]. simpl.
      apply (integrity_posts_grow db); [done| |by left].
      intros k Hk. unfold table_get in *. simpl.
      destruct (decide (id = k)) as [<-|Hne];
        [by rewrite lookup_insert_eq|by rewrite lookup_insert_ne].
    + by rewrite (backend_update_post_missing u id db E).
  - unfold store_after.
    destruct (table_get (cc_post_id comment) (posts db)) as [r|] eqn:E.
    + rewrite (backend_create_comment_run comment db r E). simpl.
      by apply (insert_comment_integrity (CommentRow_of_create comment) db r).
    + by rewrite (backend_create_comment_missing comment db E).
Qed.

Lemma orm_step_integrity (q : request) (db : DB) :
  referential_integrity db -> referential_integrity (Orm_step db q).
Proof.
  intros Hi. destruct q as [post|u id|id|comment]; simpl; unfold store_after.
  - rewrite orm_create_post_run. case_decide; [|done]. simpl.
    by apply insert_post_integrity.
  - destruct (table_get id (posts db)) as [r|] eqn:E.
    + rewrite (orm_update_post_run u id db r E).
      destruct (set_columns r (dict_exclude_unset u)) as [r'|]; [|done].
      case_decide; [|done]. simpl.
      apply (integrity_posts_grow db); [done| |by left].
      intros k Hk. unfold table_get in *. simpl.
      rewrite lookup_alter. case_decide; [subst; by rewrite E|done].
    + by rewrite (orm_update_post_missing u id db E).
  - destruct (table_get id (posts db)) as [r|] eqn:E.
    + rewrite (orm_delete_post_run id db r E). simpl.
      intros k x Hk. unfold table_get in *. simpl in *.
      apply map_lookup_filter_Some in Hk as [Hk Hne]. simpl in Hne.
      rewrite lookup_delete_ne by done. by eapply Hi.
    + by rewrite (orm_delete_post_missing id db E).
  - destruct (table_get (cc_post_id comment) (posts db)) as [r|] eqn:E.
    + rewrite (orm_create_comment_run comment db r E). simpl.
      by apply (insert_comment_integrity (Orm.CommentRow_of_create comment) db r).
    + by rewrite (orm_create_comment_missing comment db E).
Qed.

(** X11: the ORM variant keeps referential integrity: if every stored
    comment references a stored post, this still holds after any sequence of
    create-post, update, delete and create-comment requests. *)
Theorem orm_keeps_referential_integrity (history : list request) (db : DB) :
  referential_integrity db ->
  referential_integrity (foldl Orm_step db history).
Proof.
  revert db. induction history as [|q history IH]; intros db H; simpl; [done|].
  apply IH. by apply orm_step_integrity.
Qed.

Lemma empty_db_integrity : referential_integrity empty_db.
Proof. intros k c H. unfold table_get in H. simpl in H. by simplify_map_eq. Qed.

Lemma orm_keeps_referential_integrity_witness :
  referential_integrity
    (foldl Orm_step empty_db
       [CreatePost sample_post; CreateComment sample_comment; DeletePost 1]).
Proof.
  apply (orm_keeps_referential_integrity
           [CreatePost sample_post; CreateComment sample_comment; DeletePost 1]
           empty_db).
  apply empty_db_integrity.
Defined.

(** X12: the query-builder variant keeps referential integrity along any
    sequence of requests that contains no delete; a delete can break it: on
    the sample store, deleting post 1 leaves its comment without a post. *)
Theorem backend_keeps_referential_integrity_without_delete
    (history : list request) (db : DB) :
  Forall delete_free history ->
  referential_integrity db ->
  referential_integrity (foldl Backend_step db history) /\
  (referential_integrity sample_db /\
   ~ referential_integrity (Backend_step sample_db (DeletePost 1))).
Proof.
  intros Hfree Hi. split.
  - revert db Hi. induction Hfree as [|q history Hq _ IH]; intros db Hi; simpl;
      [done|].
    apply IH. by apply backend_step_integrity.
  - split.
    + apply (backend_step_integrity (CreateComment sample_comment) _ I).
      apply (backend_step_integrity (CreatePost sample_post) _ I).
      apply empty_db_integrity.
    + intros Hbad.
      destruct (Hbad 1 (CommentRow_of_create sample_comment)) as [x Hx];
        [reflexivity|]. vm_compute in Hx. discriminate.
Qed.

Lemma backend_keeps_referential_integrity_without_delete_witness :
  referential_integrity
    (foldl Backend_step empty_db
       [CreatePost sample_post; CreateComment sample_comment;
        UpdatePost {| pu_title := Some (Some "X"); pu_content := None |} 1]).
Proof.
  apply (backend_keeps_referential_integrity_without_delete
           [CreatePost sample_post; CreateComment sample_comment;
            UpdatePost {| pu_title := Some (Some "X"); pu_content := None |} 1]
           empty_db).
  - repeat constructor.
  - apply empty_db_integrity.
Defined.

Lemma insert_is_alter (m : gmap Z PostRow) (k : Z) (r r' : PostRow) :
  m !! k = Some r -> <[k := r']> m = alter (fun _ => r') k m.
Proof.
  intros H. apply map_eq. intros j. destruct (decide (k = j)) as [<-|Hne].
  - by rewrite lookup_insert_eq, lookup_alter_eq, H.
  - by rewrite lookup_insert_ne, lookup_alter_ne.
Qed.

Lemma alter_same (m : gmap Z PostRow) (k : Z) (r : PostRow) :
  m !! k = Some r -> alter (fun _ => r) k m = m.
Proof.
  intros H. apply map_eq. intros j. destruct (decide (k = j)) as [<-|Hne].
  - by rewrite lookup_alter_eq, H.
  - by rewrite lookup_alter_ne.
Qed.

(** The UTC reading of a date without offset, or with the offset 0, is its
    wall-clock reading. *)
Lemma utc_date_wall (d : datetime) : utc_date d -> utc_wall d = wall d.
Proof.
  unfold utc_date, utc_wall. intros [->| ->]; [done|]. apply Z.sub_0_r.
Qed.

Lemma steps_agree (q : request) (db : DB) :
  delete_free q -> title_fits q -> utc_dated q -> titles_fit db ->
  Backend_step db q = Orm_step db q.
Proof.
  intros Hq Hfit Hdate Hdb. destruct q as [post|u id| |comment]; simpl in *;
    [| |done|]; unfold store_after.
  - rewrite backend_create_post_run, orm_create_post_run.
    rewrite decide_True by done. simpl.
    unfold PostRow_of_create, Orm.PostRow_of_create.
    by rewrite (utc_date_wall _ Hdate).
  - destruct (table_get id (posts db)) as [r|] eqn:E.
    + rewrite (backend_update_post_run u id db r E), (orm_update_post_run u id db r E).
      destruct (set_columns r (dict_exclude_unset u)) as [r'|] eqn:Hset.
      * rewrite (decide_True (P := (String.length (row_title r') <= Orm.title_max_length)%nat))
          by (eapply set_columns_title_fits; [exact Hset|exact Hfit|by eapply Hdb]).
        case_decide as Hu; simpl.
        -- rewrite Hu in Hset. simpl in Hset. simplify_eq.
           rewrite (alter_same _ _ _ E). by destruct db as [[? ?] ?].
        -- by rewrite (insert_is_alter _ _ r r' E).
      * by case_decide.
    + rewrite (backend_update_post_missing u id db E),
        (orm_update_post_missing u id db E). by case_decide.
  - destruct (table_get (cc_post_id comment) (posts db)) as [r|] eqn:E.
    + rewrite (backend_create_comment_run comment db r E),
        (orm_create_comment_run comment db r E). simpl.
      unfold CommentRow_of_create, Orm.CommentRow_of_create.
      by rewrite (utc_date_wall _ Hdate).
    + rewrite (backend_create_comment_missing comment db E),
        (orm_create_comment_missing comment db E). by case_decide.
Qed.

Lemma orm_step_titles_fit (q : request) (db : DB) :
  titles_fit db -> titles_fit (Orm_step db q).
Proof.
  intros Hdb. destruct q as [post|u id|id|comment]; simpl; unfold store_after.
  - rewrite orm_create_post_run. case_decide as Hfit; [|done]. simpl.
    intros k r. unfold table_get. simpl.
    destruct (decide (next_id (posts db) = k)) as [<-|Hne].
    + rewrite lookup_insert_eq. by intros [= <-].
    + rewrite lookup_insert_ne by done. apply Hdb.
  - destruct (table_get id (posts db)) as [r|] eqn:E.
    + rewrite (orm_update_post_run u id db r E).
      destruct (set_columns r (dict_exclude_unset u)) as [r'|]; [|done].
      case_decide as Hfit; [|done]. simpl.
      intros k x. unfold table_get in *. simpl.
      destruct (decide (id = k)) as [<-|Hne].
      * rewrite lookup_alter_eq, E. by intros [= <-].
      * rewrite lookup_alter_ne by done. apply Hdb.
    + by rewrite (orm_update_post_missing u id db E).
  - destruct (table_get id (posts db)) as [r|] eqn:E.
    + rewrite (orm_delete_post_run id db r E). simpl.
      intros k x Hk. unfold table_get in *. simpl in *.
      apply lookup_delete_Some in Hk as [_ Hk]. by eapply Hdb.
    + by rewrite (orm_delete_post_missing id db E).
  - destruct (table_get (cc_post_id comment) (posts db)) as [r|] eqn:E.
    + by rewrite (orm_create_comment_run comment db r E).
    + by rewrite (orm_create_comment_missing comment db E).
Qed.

(** X13: from a store whose titles fit the 255 characters the ORM model
    declares, along any sequence of create-post, update and create-comment
    requests (no delete) whose titles fit them too and whose dates are
    without offset, or with the offset 0, the two variants leave the same
    store. *)
Theorem variants_agree_without_delete (history : list request) (db : DB) :
  titles_fit db ->
  Forall delete_free history ->
  Forall title_fits history ->
  Forall utc_dated history ->
  foldl Backend_step db history = foldl Orm_step db history.
Proof.
  intros Hdb Hfree. revert db Hdb.
  induction Hfree as [|q history Hq _ IH]; intros db Hdb Hfit Hdate; simpl; [done|].
  apply Forall_cons in Hfit as [Hfit Hfits].
  apply Forall_cons in Hdate as [Hdate Hdates].
  rewrite (steps_agree q db Hq Hfit Hdate Hdb).
  apply IH; [by apply orm_step_titles_fit|done|done].
Qed.

Lemma empty_db_titles_fit : titles_fit empty_db.
Proof. intros k r H. unfold table_get in H. simpl in H. by simplify_map_eq. Qed.

Lemma variants_agree_without_delete_witness :
  foldl Backend_step empty_db
    [CreatePost sample_post; CreateComment sample_comment;
     UpdatePost {| pu_title := None; pu_content := Some (Some "Y") |} 1]
  = foldl Orm_step empty_db
      [CreatePost sample_post; CreateComment sample_comment;
       UpdatePost {| pu_title := None; pu_content := Some (Some "Y") |} 1].
Proof.
  apply (variants_agree_without_delete
           [CreatePost sample_post; CreateComment sample_comment;
            UpdatePost {| pu_title := None; pu_content := Some (Some "Y") |} 1]
           empty_db).
  - apply empty_db_titles_fit.
  - repeat constructor.
  - repeat constructor; simpl; try lia; done.
  - repeat constructor; by left.
Defined.

(** ** The single-post read *)

(** X14: [GET /posts/{id}] of the ORM variant only reads the store; it
    answers 404 when no post has the identifier, and otherwise 200 with the
    identifier, the stored title and content and the stored date with offset
    0, and no [comments] entry, although the existence check has fetched the
    comments. *)
Theorem get_post_response (id : Z) (db : DB) :
  (OrmApp.get_post id db).1 = db /\
  (table_get id (posts db) = None ->
   (OrmApp.get_post id db).2
   = {| status_code := 404;
        content := Some (VDict [("detail", VStr "Not Found")]) |}) /\
  (forall r, table_get id (posts db) = Some r ->
   (exists cs, result_of (Orm.get_post_or_404 id) db
               = Return {| Orm.pt_id := id;
                           Orm.pt_publication_date := aware_utc (row_publication_date r);
                           Orm.pt_title := row_title r;
                           Orm.pt_content := row_content r;
                           Orm.pt_comments := Some cs |}) /\
   (OrmApp.get_post id db).2
   = {| status_code := 200;
        content :=
          Some (VDict [("title", VStr (row_title r));
                       ("content", VStr (row_content r));
                       ("publication_date",
                        VDatetime (aware_utc (row_publication_date r)));
                       ("id", VInt id)]) |}).
Proof.
  unfold OrmApp.get_post, endpoint_tortoise, Orm.get_post, bind, result_of.
  destruct (table_get id (posts db)) as [r|] eqn:E.
  - rewrite (orm_get_post_or_404_found id db r E). simpl.
    split_and!; try done.
    intros r' [= <-]. split; [by eexists|done].
  - rewrite (orm_get_post_or_404_missing id db E). simpl.
    by split_and!.
Qed.

Lemma get_post_response_witness :
  (OrmApp.get_post 1 sample_db).2
  = {| status_code := 200;
       content :=
         Some (VDict [("title", VStr "A"); ("content", VStr "B");
                      ("publication_date", VDatetime (aware_utc 7));
                      ("id", VInt 1)]) |}.
Proof.
  destruct (get_post_response 1 sample_db) as (_ & _ & H).
  destruct (H (PostRow_of_create sample_post)) as [_ Hr]; [reflexivity|].
  exact Hr.
Defined.

(** ** Routing *)

Lemma append_snoc (a b : string) (c : ascii) :
  (a ++ String c "") ++ b = a ++ String c b.
Proof.
  induction a as [|x a IH]; [reflexivity|].
  change (String x ((a ++ String c "") ++ b) = String x (a ++ String c b)).
  by f_equal.
Qed.

(** A parameter that ends the template takes the whole rest of the path,
    which has to be a segment. *)
Lemma match_param_last (name s taken : string) (ps : list (string * string)) :
  (fix take (taken p : string) {struct p} : option (list (string * string)) :=
     match p with
     | EmptyString => None
     | String c p' =>
         if Ascii.eqb c "/" then None
         else
           let taken' := taken ++ String c "" in
           match take taken' p' with
           | Some params => Some params
           | None => cons (name, taken') <$> match_tokens [] p'
           end
     end) taken s = Some ps
  <-> segment s /\ ps = [(name, taken ++ s)].
Proof.
  unfold segment. revert taken ps.
  induction s as [|c s IH]; intros taken ps.
  - split; [done|]. by intros [[? _] _].
  - cbn [slash_free]. destruct (Ascii.eqb_spec c "/") as [->|Hc].
    + split; [done|]. by intros [[_ ?] _].
    + cbn [negb andb]. cbv zeta.
      specialize (IH (taken ++ String c "")).
      match goal with
      | |- context [match ?t with Some _ => _ | None => _ end] =>
          destruct t as [params|] eqn:E
      end.
      * destruct (proj1 (IH params) eq_refl) as [[_ Hs] ->].
        rewrite append_snoc. split; [|by intros [_ ->]].
        intros [= <-]. by split_and!.
      * destruct s as [|c' s']; simpl.
        -- split; [|by intros [_ ->]]. intros [= <-]. by split_and!.
        -- split; [done|]. intros [[_ Hs] ->].
           assert (None = Some [(name, (taken ++ String c "") ++ String c' s')])
             as Hbad; [|done].
           apply IH. by split_and!.
Qed.

Lemma match_lit_cons (c : ascii) (ts : list token) (p : string) :
  match_tokens (Lit c :: ts) (String c p) = match_tokens ts p.
Proof. cbn [match_tokens]. by rewrite Ascii.eqb_refl. Qed.

Lemma match_lit_inv (c : ascii) (ts : list token) (p : string)
    (ps : list (string * string)) :
  match_tokens (Lit c :: ts) p = Some ps ->
  exists p', p = String c p' /\ match_tokens ts p' = Some ps.
Proof.
  destruct p as [|c' p']; cbn [match_tokens]; [done|].
  destruct (Ascii.eqb_spec c c') as [<-|]; [|done]. by exists p'.
Qed.

Lemma match_single_post (p : string) (ps : list (string * string)) :
  match_path "/posts/{id}" p = Some ps
  <-> exists s, p = "/posts/" ++ s /\ segment s /\ ps = [("id", s)].
Proof.
  unfold match_path.
  change (compile_path None "/posts/{id}")
    with [Lit "/"; Lit "p"; Lit "o"; Lit "s"; Lit "t"; Lit "s"; Lit "/"; Param "id"]%char.
  split.
  - intros H.
    do 7 (apply match_lit_inv in H as (? & -> & H)).
    apply (match_param_last "id" _ "") in H as [Hs ->]. by eexists.
  - intros (s & -> & Hs & ->).
    change ("/posts/" ++ s) with
      (String "/" (String "p" (String "o" (String "s" (String "t"
        (String "s" (String "/" s))))))).
    rewrite !match_lit_cons.
    apply (match_param_last "id" s ""). by split.
Qed.

(** X15: the template [/posts/{id}] matches exactly the paths [/posts/]
    followed by one segment (not empty, no ['/']), and binds [id] to that
    segment. *)
Theorem single_post_path_matches (p : string) (ps : list (string * string)) :
  match_path "/posts/{id}" p = Some ps
  <-> exists s, p = "/posts/" ++ s /\ segment s /\ ps = [("id", s)].
Proof. apply match_single_post. Qed.

(** X16: for every segment [s], the path [/posts/s] with [PATCH] and
    [DELETE] resolves to [update_post] and [delete_post] in both variants,
    with [id] bound to [s]; with [GET] it resolves to [get_post] in the ORM
    variant and to no route in the query-builder variant; with [POST] it
    resolves to no route in either. *)
Theorem single_post_routes (s : string) :
  segment s ->
  let p := "/posts/" ++ s in
  find_route Orm_routes GET p
  = Some ({| route_method := GET; route_path := "/posts/{id}";
             route_name := "get_post" |}, [("id", s)]) /\
  find_route Orm_routes PATCH p
  = Some ({| route_method := PATCH; route_path := "/posts/{id}";
             route_name := "update_post" |}, [("id", s)]) /\
  find_route Orm_routes DELETE p
  = Some ({| route_method := DELETE; route_path := "/posts/{id}";
             route_name := "delete_post" |}, [("id", s)]) /\
  find_route Backend_routes PATCH p = find_route Orm_routes PATCH p /\
  find_route Backend_routes DELETE p = find_route Orm_routes DELETE p /\
  find_route Backend_routes GET p = None /\
  find_route Backend_routes POST p = None /\
  find_route Orm_routes POST p = None.
Proof.
  intros Hs p.
  assert (Hid : match_path "/posts/{id}" p = Some [("id", s)]).
  { apply match_single_post. by exists s. }
  assert (Hlist : match_path "/posts" p = None) by reflexivity.
  assert (Hcomments : match_path "/comments" p = None) by reflexivity.
  assert (Hbad : match_path "posts/{id}" p = None) by reflexivity.
  unfold Orm_routes, Backend_routes.
  cbn [find_route route_path route_method].
  rewrite Hid, Hlist, Hcomments, Hbad.
  repeat case_decide; done.
Qed.

Lemma single_post_routes_witness :
  find_route Orm_routes DELETE "/posts/12"
  = Some ({| route_method := DELETE; route_path := "/posts/{id}";
             route_name := "delete_post" |}, [("id", "12")]) /\
  find_route Backend_routes GET "/posts/12" = None.
Proof.
  destruct (single_post_routes "12") as (_ & _ & Hd & _ & _ & Hg & _);
    [by split|].
  by split.
Defined.

(** X17: requests with [POST], [PATCH] or [DELETE] are routed alike by the
    two variants, whatever the path: the route tables differ on [GET] only. *)
Theorem routers_agree_off_get (p : string) :
  find_route Backend_routes POST p = find_route Orm_routes POST p /\
  find_route Backend_routes PATCH p = find_route Orm_routes PATCH p /\
  find_route Backend_routes DELETE p = find_route Orm_routes DELETE p.
Proof.
  unfold Orm_routes, Backend_routes.
  cbn [find_route route_path route_method].
  destruct (match_path "/posts" p), (match_path "posts/{id}" p),
    (match_path "/posts/{id}" p), (match_path "/comments" p);
    repeat case_decide; done.
Qed.

(** X22: for every segment [s], [GET /posts/s] is answered by the router of
    the query-builder variant itself, with 405: no route takes the request,
    and the path matches the routes of [PATCH] and [DELETE].  The ORM
    variant hands the request to [get_post]. *)
Theorem backend_single_post_get_not_allowed (s : string) :
  segment s ->
  route_request Backend_routes GET ("/posts/" ++ s) = MethodNotAllowed /\
  route_request Orm_routes GET ("/posts/" ++ s)
  = Handled {| route_method := GET; route_path := "/posts/{id}";
               route_name := "get_post" |} [("id", s)].
Proof.
  intros Hs.
  assert (Hid : match_path "/posts/{id}" ("/posts/" ++ s) = Some [("id", s)]).
  { apply match_single_post. by exists s. }
  assert (Hlist : match_path "/posts" ("/posts/" ++ s) = None) by reflexivity.
  assert (Hcomments : match_path "/comments" ("/posts/" ++ s) = None) by reflexivity.
  assert (Hbad : match_path "posts/{id}" ("/posts/" ++ s) = None) by reflexivity.
  unfold route_request, path_matches, Orm_routes, Backend_routes.
  cbn [find_route existsb route_path route_method].
  rewrite Hid, Hlist, Hcomments, Hbad.
  repeat case_decide; done.
Qed.

Lemma backend_single_post_get_not_allowed_witness :
  route_request Backend_routes GET "/posts/12" = MethodNotAllowed.
Proof.
  destruct (backend_single_post_get_not_allowed "12") as [H _]; [by split|].
  exact H.
Defined.

(** ** Listing after a write *)

Lemma window_stored (l : list (Z * PostRow)) (t : Table PostRow) (f : Z * PostRow -> PostDB)
    (p : PostDB) :
  l `sublist_of` table_scan t ->
  (forall kr, pd_id (f kr) = kr.1) ->
  p ∈ f <$> l ->
  is_Some (table_get (pd_id p) t).
Proof.
  intros Hsub Hf Hp. apply list_elem_of_fmap in Hp as ([k r] & -> & Hin).
  eapply elem_of_sublist in Hin; [|exact Hsub].
  apply elem_of_table_scan in Hin. rewrite Hf. by exists r.
Qed.

(** X18: a post created while the table holds fewer posts than the capped
    window ([min(100, limit)], [limit > 0]; title within 255 characters) is on
    the page that a listing from offset 0 then returns, with the identifier
    and the fields the creation returned, in each variant. *)
Theorem create_post_then_list (post : PostCreate) (limit : Z) (db : DB) :
  0 < limit ->
  Z.of_nat (size (rows (posts db))) < Z.min 100 limit ->
  (String.length (pc_title post) <= 255)%nat ->
  (exists (created : PostPublic) (page : list PostDB),
     result_of (Backend.create_post post) db = Return created /\
     result_of (Backend.list_posts (Backend.pagination 0 limit))
       (store_after (Backend.create_post post) db) = Return page /\
     {| pd_title := pp_title created; pd_content := pp_content created;
        pd_publication_date := pp_publication_date created;
        pd_id := pp_id created |} ∈ page /\
     pp_title created = pc_title post /\
     pp_content created = pc_content post) /\
  (exists (created : PostDB) (page : list PostDB),
     result_of (Orm.create_post post) db = Return created /\
     result_of (Orm.list_posts (Orm.pagination 0 limit))
       (store_after (Orm.create_post post) db) = Return page /\
     created ∈ page /\
     pd_title created = pc_title post /\
     pd_content created = pc_content post).
Proof.
  intros Hl Hsize Hfit.
  unfold result_of, store_after.
  rewrite backend_list_posts_run, orm_list_posts_run by lia.
  rewrite backend_create_post_run, orm_create_post_run.
  rewrite decide_True by done. simpl.
  change (Z.to_nat 0) with 0%nat. rewrite !drop_0.
  rewrite !take_ge
    by (rewrite table_scan_length; simpl;
        rewrite map_size_insert_None by apply next_id_fresh; lia).
  split; eexists _, _; split_and!; try reflexivity; simpl.
  - apply (list_elem_of_fmap_2' _ _ (next_id (posts db), PostRow_of_create post));
      [|done].
    apply elem_of_table_scan. unfold table_get. simpl. apply lookup_insert_eq.
  - apply (list_elem_of_fmap_2' _ _ (next_id (posts db), Orm.PostRow_of_create post)).
    + apply elem_of_table_scan. unfold table_get. simpl. apply lookup_insert_eq.
    + done.
Qed.

Lemma create_post_then_list_witness :
  exists (created : PostDB) (page : list PostDB),
    result_of (Orm.create_post sample_post) sample_db = Return created /\
    result_of (Orm.list_posts (Orm.pagination 0 10))
      (store_after (Orm.create_post sample_post) sample_db) = Return page /\
    created ∈ page.
Proof.
  destruct (create_post_then_list sample_post 10 sample_db)
    as [_ (created & page & Hc & Hl & Hin & _)];
    [lia|vm_compute; reflexivity|simpl; lia|].
  exists created, page. by split_and!.
Defined.

(** X19: after a delete of [id], whether it found the post or answered
    404, no page of the listing, at any offset and width, shows a post with
    that identifier, in either variant. *)
Theorem delete_post_then_list (id skip limit : Z) (db : DB) :
  (forall page,
     result_of (Backend.list_posts (Backend.pagination skip limit))
       (store_after (Backend.delete_post id) db) = Return page ->
     Forall (fun p => pd_id p <> id) page) /\
  (forall page,
     result_of (Orm.list_posts (Orm.pagination skip limit))
       (store_after (Orm.delete_post id) db) = Return page ->
     Forall (fun p => pd_id p <> id) page).
Proof.
  assert (Hb : table_get id (posts (store_after (Backend.delete_post id) db)) = None).
  { unfold store_after.
    destruct (table_get id (posts db)) as [r|] eqn:E.
    - rewrite (backend_delete_post_run id db r E). simpl.
      unfold table_get. simpl. apply lookup_delete_eq.
    - by rewrite (backend_delete_post_missing id db E). }
  assert (Ho : table_get id (posts (store_after (Orm.delete_post id) db)) = None).
  { unfold store_after.
    destruct (table_get id (posts db)) as [r|] eqn:E.
    - rewrite (orm_delete_post_run id db r E). simpl.
      unfold table_get. simpl. apply lookup_delete_eq.
    - by rewrite (orm_delete_post_missing id db E). }
  split; intros page Hpage.
  - apply backend_list_posts_window in Hpage as (window & Hsub & ->).
    apply Forall_forall. intros p Hp Heq.
    eapply window_stored in Hp as [r Hr]; [|exact Hsub|done].
    rewrite Heq in Hr. congruence.
  - apply orm_list_posts_window in Hpage as (window & Hsub & ->).
    apply Forall_forall. intros p Hp Heq.
    eapply window_stored in Hp as [r Hr]; [|exact Hsub|done].
    rewrite Heq in Hr. congruence.
Qed.
